(** * Urban Transportation Insights Dashboard (app.py)

    A shallow embedding of the live script of [app.py] (its first 192
    lines; everything below them in the file is commented out) and the
    properties of its callbacks.

    The script keeps three pandas data frames as module globals, fills
    their missing values with [0] once at import time, keeps a numeric
    projection of each, and registers five Dash callbacks that read the
    globals and return a plotly figure (or a list of dropdown options).

    pandas and plotly are modelled at the level the script uses them:
    a frame is an ordered list of named, typed columns; a figure is one
    trace plus the layout fields the script sets; a Python exception is
    a value of [exn] carried by [result]. *)

From Stdlib Require Import ZArith List String Bool Lia Permutation SpecFloat.
Import ListNotations.
Open Scope string_scope.

(** ** Python exceptions *)

Inductive exn :=
| KeyError (key : string)
| KeyError_None
| ValueError (arg : string)
| TypeError
| IndexError.

Inductive result (A : Type) :=
| Ok (a : A)
| Raise (e : exn).

Arguments Ok {A} a.
Arguments Raise {A} e.

Definition bind {A B} (r : result A) (k : A -> result B) : result B :=
  match r with
  | Ok a => k a
  | Raise e => Raise e
  end.

Notation "x <- r ;; k" := (bind r (fun x => k))
  (at level 61, r at next level, right associativity).

Fixpoint mapM {A B} (f : A -> result B) (l : list A) : result (list B) :=
  match l with
  | [] => Ok []
  | a :: l' => b <- f a ;; bs <- mapM f l' ;; Ok (b :: bs)
  end.

(** ** pandas *)

Module Pandas.

Inductive dtype := int64 | float64 | object | bool_.

Definition dtype_eqb (a b : dtype) : bool :=
  match a, b with
  | int64, int64 | float64, float64 | object, object | bool_, bool_ => true
  | _, _ => false
  end.

(** A cell: a Python scalar.  A float is an IEEE 754 value;
    [read_csv] marks a missing field with the float NaN, in a
    [float64] column as well as in an [object] one. *)
Inductive scalar :=
| PyInt (z : Z)
| PyFloat (f : spec_float)
| PyStr (s : string)
| PyBool (b : bool)
| PyNone.

Definition NaN : scalar := PyFloat S754_nan.

(** [pd.isna] on a scalar. *)
Definition isna (v : scalar) : bool :=
  match v with
  | PyFloat S754_nan => true
  | PyNone => true
  | _ => false
  end.

Record Series := mkSeries { s_dtype : dtype; s_values : list scalar }.

(** Columns in file order.  [read_csv] renames repeated headers
    ([X], [X.1], ...), so a label names one column and lookup by
    label takes the first. *)
Definition DataFrame := list (string * Series).

(** [df.columns] *)
Definition columns (df : DataFrame) : list string := map fst df.

(** [label in df.columns] *)
Definition contains (label : string) (cols : list string) : bool :=
  existsb (String.eqb label) cols.

(** [df[label]] *)
Fixpoint getitem (df : DataFrame) (label : string) : result Series :=
  match df with
  | [] => Raise (KeyError label)
  | (n, s) :: rest => if String.eqb n label then Ok s else getitem rest label
  end.

(** [df[labels]] with a list (or Index) of labels *)
Definition getitem_list (df : DataFrame) (labels : list string) : result DataFrame :=
  mapM (fun l => s <- getitem df l ;; Ok (l, s)) labels.

(** A cell compared with a Python [str] by [==]: only a [str] cell
    with the same characters is equal. *)
Definition cell_eq_str (v : string) (c : scalar) : bool :=
  match c with
  | PyStr t => String.eqb t v
  | _ => false
  end.

(** [series == v], element-wise *)
Definition eq_str (s : Series) (v : string) : list bool :=
  map (cell_eq_str v) (s_values s).

Fixpoint take_mask {A} (mask : list bool) (l : list A) : list A :=
  match mask, l with
  | b :: mask', x :: l' => if b then x :: take_mask mask' l' else take_mask mask' l'
  | _, _ => []
  end.

(** [df[mask]] with a boolean Series *)
Definition getitem_mask (df : DataFrame) (mask : list bool) : DataFrame :=
  map (fun c => (fst c, mkSeries (s_dtype (snd c)) (take_mask mask (s_values (snd c))))) df.

(** The value [fillna(0)] writes into a column of the given dtype:
    the fill value is cast to the column's dtype where it has one. *)
Definition zero_of (dt : dtype) : scalar :=
  match dt with
  | float64 => PyFloat (S754_zero false)
  | _ => PyInt 0
  end.

Definition fill_cell (dt : dtype) (v : scalar) : scalar :=
  if isna v then zero_of dt else v.

Definition fillna_series (s : Series) : Series :=
  mkSeries (s_dtype s) (map (fill_cell (s_dtype s)) (s_values s)).

(** [df.fillna(0, inplace=True)]: the frame after the call *)
Definition fillna (df : DataFrame) : DataFrame :=
  map (fun c => (fst c, fillna_series (snd c))) df.

(** [df.select_dtypes(include=...)] *)
Definition select_dtypes (include : list dtype) (df : DataFrame) : DataFrame :=
  filter (fun c => existsb (dtype_eqb (s_dtype (snd c))) include) df.

(** An entry of [df.corr()]: the Pearson coefficient pandas computes
    for two columns, in double arithmetic inside the library.  The
    entry is kept as the pair of columns it is computed from. *)
Inductive coef := Pearson (x y : list scalar).

Record CorrMatrix := mkCorr {
  cm_values : list (list coef);
  cm_columns : list string;
  cm_index : list string
}.

(** [df.corr()] *)
Definition corr (df : DataFrame) : CorrMatrix :=
  mkCorr
    (map (fun r => map (fun c => Pearson (s_values (snd r)) (s_values (snd c))) df) df)
    (columns df) (columns df).

(** *** Row view of a frame *)

Definition nrows (df : DataFrame) : nat :=
  match df with
  | [] => 0
  | c :: _ => List.length (s_values (snd c))
  end.

(** Every column has the frame's number of rows. *)
Definition rectangular (df : DataFrame) : Prop :=
  Forall (fun c => List.length (s_values (snd c)) = nrows df) df.

Definition record := list (string * scalar).

Definition row_at (df : DataFrame) (i : nat) : record :=
  map (fun c => (fst c, nth i (s_values (snd c)) PyNone)) df.

Definition rows (df : DataFrame) : list record :=
  map (row_at df) (seq 0 (nrows df)).

Fixpoint field (r : record) (label : string) : scalar :=
  match r with
  | [] => PyNone
  | (n, v) :: r' => if String.eqb n label then v else field r' label
  end.

End Pandas.

Import Pandas.

(** ** plotly *)

Module Plotly.

(** The values of the colour-scale dropdown. *)
Inductive color_scale := Viridis | Cividis | Bluered | RdBu.

Inductive trace :=
| Scatter (x y : list scalar)
| Bar (x y : list scalar) (marker_color : list string)
| Scattermapbox (lat lon hovertext : list scalar) (customdata : list (list scalar))
| Heatmap (z : list (list coef)) (x y : list string)
          (colorscale : color_scale) (showscale : bool).

(** A value [Series.mean()] returns: computed in double arithmetic
    inside pandas, kept here as the cells it averages. *)
Inductive average := Mean (cells : list scalar).

Definition is_text (v : scalar) : bool :=
  match v with
  | PyStr _ => true
  | _ => false
  end.

(** [series.mean()]: text cells cannot be averaged. *)
Definition mean (cells : list scalar) : result average :=
  if existsb is_text cells then Raise TypeError else Ok (Mean cells).

Record Layout := mkLayout {
  title : option string;
  xaxis_title : option string;
  yaxis_title : option string;
  plot_bgcolor : option string;
  paper_bgcolor : option string;
  mapbox_style : option string;
  mapbox_zoom : option Z;
  height : option Z;
  mapbox_center : option (average * average)
}.

Record Figure := mkFigure { data : trace; layout : Layout }.

Definition blank_layout (t : option string) : Layout :=
  mkLayout t None None None None None None None None.

(** A column named by a plotly express argument; a name that is not
    a column of the frame is a [ValueError]. *)
Definition px_column (df : DataFrame) (arg : string) : result (list scalar) :=
  match getitem df arg with
  | Ok s => Ok (s_values s)
  | Raise _ => Raise (ValueError arg)
  end.

(** [px.line(title=t)] and [px.bar(title=t)]: no frame, so a trace
    without points under the given title. *)
Definition px_line_blank (t : string) : Figure :=
  mkFigure (Scatter [] []) (blank_layout (Some t)).

Definition px_bar_blank (t : string) : Figure :=
  mkFigure (Bar [] [] []) (blank_layout (Some t)).

(** The centre plotly express gives a map when the call names none:
    [dict(lat=df[lat].mean(), lon=df[lon].mean())].  Without a [lat]
    argument the label is [None], which is no column of any frame. *)
Definition mapbox_centre (df : DataFrame) (lat lon : option string)
    : result (average * average) :=
  la <- match lat with Some l => getitem df l | None => Raise KeyError_None end ;;
  clat <- mean (s_values la) ;;
  lo <- match lon with Some l => getitem df l | None => Raise KeyError_None end ;;
  clon <- mean (s_values lo) ;;
  Ok (clat, clon).

(** [px.scatter_mapbox(title=t)]: no frame and no [lat] or [lon]; the
    map is centred all the same. *)
Definition px_scatter_mapbox_blank (t : string) : result Figure :=
  centre <- mapbox_centre [] None None ;;
  Ok (mkFigure (Scattermapbox [] [] [] [])
        (mkLayout (Some t) None None None None None (Some 8%Z) None (Some centre))).

Definition label_of (labels : list (string * string)) (c : string) : string :=
  match find (fun p => String.eqb (fst p) c) labels with
  | Some p => snd p
  | None => c
  end.

(** [px.line(df, x=.., y=.., title=..)]: one point per row, in row order *)
Definition px_line (df : DataFrame) (x y t : string) : result Figure :=
  xs <- px_column df x ;;
  ys <- px_column df y ;;
  Ok (mkFigure (Scatter xs ys)
        (mkLayout (Some t) (Some x) (Some y) None None None None None None)).

(** [px.bar(df, x=.., y=.., title=.., color_discrete_sequence=..,
    labels=..)]: one rectangle per row, in row order; rectangles
    that share an [x] are drawn stacked. *)
Definition px_bar (df : DataFrame) (x y t : string)
    (color_discrete_sequence : list string) (labels : list (string * string))
    : result Figure :=
  xs <- px_column df x ;;
  ys <- px_column df y ;;
  Ok (mkFigure (Bar xs ys color_discrete_sequence)
        (mkLayout (Some t) (Some (label_of labels x)) (Some (label_of labels y))
           None None None None None None)).

(** [px.scatter_mapbox(df, lat=.., lon=.., hover_name=..,
    hover_data=[..], zoom=.., height=..)]: one point per row, the map
    centred on the mean latitude and longitude *)
Definition px_scatter_mapbox (df : DataFrame) (lat lon hover_name : string)
    (hover_data : list string) (zoom h : Z) : result Figure :=
  lats <- px_column df lat ;;
  lons <- px_column df lon ;;
  names <- px_column df hover_name ;;
  extra <- mapM (px_column df) hover_data ;;
  centre <- mapbox_centre df (Some lat) (Some lon) ;;
  Ok (mkFigure (Scattermapbox lats lons names extra)
        (mkLayout None None None None None None (Some zoom) (Some h) (Some centre))).

(** [ff.create_annotated_heatmap(z=.., x=.., y=.., colorscale=..,
    showscale=..)]: the heatmap with one annotation per cell; it
    reads [z[0]], which an empty matrix does not have. *)
Definition create_annotated_heatmap (z : list (list coef)) (x y : list string)
    (colorscale : color_scale) (showscale : bool) : result Figure :=
  match z with
  | [] => Raise IndexError
  | _ :: _ => Ok (mkFigure (Heatmap z x y colorscale showscale) (blank_layout None))
  end.

(** [fig.update_layout(xaxis_title=.., yaxis_title=..)] *)
Definition update_axis_titles (fig : Figure) (xt yt : string) : Figure :=
  let l := layout fig in
  mkFigure (data fig)
    (mkLayout (title l) (Some xt) (Some yt) (plot_bgcolor l) (paper_bgcolor l)
       (mapbox_style l) (mapbox_zoom l) (height l) (mapbox_center l)).

(** [fig.update_layout(plot_bgcolor=.., paper_bgcolor=..)] *)
Definition update_bgcolor (fig : Figure) (plot paper : string) : Figure :=
  let l := layout fig in
  mkFigure (data fig)
    (mkLayout (title l) (xaxis_title l) (yaxis_title l) (Some plot) (Some paper)
       (mapbox_style l) (mapbox_zoom l) (height l) (mapbox_center l)).

(** [fig.update_layout(mapbox_style=.., title=..)] *)
Definition update_mapbox (fig : Figure) (style t : string) : Figure :=
  let l := layout fig in
  mkFigure (data fig)
    (mkLayout (Some t) (xaxis_title l) (yaxis_title l) (plot_bgcolor l)
       (paper_bgcolor l) (Some style) (mapbox_zoom l) (height l) (mapbox_center l)).

(** The marks of a figure as pairs: (x, y) of a line or bar chart,
    (lat, lon) of a map. *)
Definition marks (fig : Figure) : list (scalar * scalar) :=
  match data fig with
  | Scatter x y => combine x y
  | Bar x y _ => combine x y
  | Scattermapbox lat lon _ _ => combine lat lon
  | Heatmap _ _ _ _ _ => []
  end.

End Plotly.

Import Plotly.

(** ** The script *)

(** The module globals after the import-time statements. *)
Record Globals := mkGlobals {
  vehicle_registration_df : DataFrame;
  public_transport_df : DataFrame;
  bicycle_network_df : DataFrame;
  vehicle_registration_numeric : DataFrame;
  public_transport_numeric : DataFrame;
  bicycle_network_numeric : DataFrame
}.

(** Lines 12-24: the three frames as [read_csv] returns them are
    cleaned with [fillna(0, inplace=True)], then their
    [float64]/[int64] columns are selected. *)
Definition load (csv_vehicle csv_transport csv_bike : DataFrame) : Globals :=
  let vehicle := fillna csv_vehicle in
  let transport := fillna csv_transport in
  let bike := fillna csv_bike in
  mkGlobals vehicle transport bike
    (select_dtypes [float64; int64] vehicle)
    (select_dtypes [float64; int64] transport)
    (select_dtypes [float64; int64] bike).

Record dropdown_option := mkOption { label : string; value : string }.

(** [not selected_columns]: the multi-select is [None] before the
    first choice and a list afterwards. *)
Definition falsy (selected_columns : option (list string)) : bool :=
  match selected_columns with
  | None => true
  | Some [] => true
  | Some (_ :: _) => false
  end.

(** The callbacks.  Dash passes each the current value of a dropdown: a
    string for the dataset and vehicle-type selectors, one of the four
    offered scales for the colour selector, a list of column names (or
    [None]) for the multi-select.  The globals they read are the
    section variable [g]. *)
Section Callbacks.

Variable g : Globals.

Definition update_columns_options (selected_dataset : string) : list dropdown_option :=
  if String.eqb selected_dataset "vehicle" then
    map (fun col => mkOption col col) (columns (vehicle_registration_numeric g))
  else if String.eqb selected_dataset "transport" then
    map (fun col => mkOption col col) (columns (public_transport_numeric g))
  else
    map (fun col => mkOption col col) (columns (bicycle_network_numeric g)).

(** The frame [update_correlation_heatmap] binds to [df] (lines 104-109). *)
Definition selected_numeric (selected_dataset : string) : DataFrame :=
  if String.eqb selected_dataset "vehicle" then vehicle_registration_numeric g
  else if String.eqb selected_dataset "transport" then public_transport_numeric g
  else bicycle_network_numeric g.

(** Lines 111-113: [if not selected_columns: selected_columns = df.columns] *)
Definition effective_columns (df : DataFrame) (selected_columns : option (list string))
    : list string :=
  if falsy selected_columns then columns df
  else match selected_columns with Some l => l | None => [] end.

Definition update_correlation_heatmap (selected_dataset : string)
    (selected_columns : option (list string)) (selected_color_scale : color_scale)
    : result Figure :=
  let df := selected_numeric selected_dataset in
  let selected_columns := effective_columns df selected_columns in
  sub <- getitem_list df selected_columns ;;
  let corr_matrix := corr sub in
  create_annotated_heatmap (cm_values corr_matrix) (cm_columns corr_matrix)
    (cm_index corr_matrix) selected_color_scale true.

Definition update_public_transport_graph (selected_dataset : string) : result Figure :=
  if negb (contains "Fin_year" (columns (public_transport_df g)))
     || negb (contains "Pax_annual" (columns (public_transport_df g)))
  then Ok (px_line_blank "Public Transport Data Missing or Incorrect")
  else
    fig <- px_line (public_transport_df g) "Fin_year" "Pax_annual"
             "Public Transport Usage Over Time" ;;
    Ok (update_axis_titles fig "Year" "Passenger Count").

Definition update_vehicle_registrations_graph (selected_vehicle_type : string)
    : result Figure :=
  df <- (if String.eqb selected_vehicle_type "All" then Ok (vehicle_registration_df g)
         else
           fuel <- getitem (vehicle_registration_df g) "CD_CL_FUEL_ENG" ;;
           Ok (getitem_mask (vehicle_registration_df g)
                 (eq_str fuel selected_vehicle_type))) ;;
  if negb (contains "POSTCODE" (columns df)) || negb (contains "TOTAL1" (columns df))
  then Ok (px_bar_blank "Vehicle Registration Data Missing or Incorrect")
  else
    fig <- px_bar df "POSTCODE" "TOTAL1"
             ("Vehicle Registrations for " ++ selected_vehicle_type)
             ["#636EFA"]
             [("POSTCODE", "Postcode"); ("TOTAL1", "Number of Vehicles")] ;;
    Ok (update_bgcolor (update_axis_titles fig "Postcode" "Number of Vehicles")
          "#F9F9F9" "#F9F9F9").

Definition update_bike_infrastructure_map (selected_dataset : string) : result Figure :=
  if negb (contains "Latitude" (columns (bicycle_network_df g)))
     || negb (contains "Longitude" (columns (bicycle_network_df g)))
  then px_scatter_mapbox_blank "Bike Infrastructure Data Missing or Incorrect"
  else
    fig <- px_scatter_mapbox (bicycle_network_df g) "Latitude" "Longitude"
             "local_name" ["facility_left"; "facility_right"] 10 500 ;;
    Ok (update_mapbox fig "open-street-map" "Bike Infrastructure Distribution").

End Callbacks.

(** ** The vehicle-type dropdown of the layout *)

(** Python [==] between the scalars a cell can hold, as the hash table
    behind [Series.unique()] uses it: numbers are compared by value
    across [int], [bool] and [float], NaN counts as equal to NaN, a
    string only equals the same string. *)
Definition as_int (v : scalar) : option Z :=
  match v with
  | PyInt z => Some z
  | PyBool b => Some (Z.b2z b)
  | _ => None
  end.

Definition float_eq_int (f : spec_float) (z : Z) : bool :=
  match f with
  | S754_zero _ => Z.eqb z 0
  | S754_finite s m e =>
      let sm := if s then Z.neg m else Z.pos m in
      if Z.leb 0 e then Z.eqb z (sm * 2 ^ e) else Z.eqb (z * 2 ^ (- e)) sm
  | _ => false
  end.

Definition is_nan (f : spec_float) : bool :=
  match f with
  | S754_nan => true
  | _ => false
  end.

Definition py_eqb (a b : scalar) : bool :=
  match a, b with
  | PyStr s, PyStr t => String.eqb s t
  | PyNone, PyNone => true
  | PyFloat f, PyFloat h => SFeqb f h || (is_nan f && is_nan h)
  | PyFloat f, _ =>
      match as_int b with Some z => float_eq_int f z | None => false end
  | _, PyFloat f =>
      match as_int a with Some z => float_eq_int f z | None => false end
  | _, _ =>
      match as_int a, as_int b with
      | Some x, Some y => Z.eqb x y
      | _, _ => false
      end
  end.

(** [Series.unique()]: the values in order of first appearance; a
    value equal to one already kept is skipped. *)
Fixpoint unique_from (kept : list scalar) (l : list scalar) : list scalar :=
  match l with
  | [] => []
  | x :: l' =>
      if existsb (py_eqb x) kept then unique_from kept l'
      else x :: unique_from (x :: kept) l'
  end.

Definition unique (l : list scalar) : list scalar := unique_from [] l.

Record type_option := mkTypeOption { type_label : scalar; type_value : scalar }.

(** Line 74, evaluated while the layout is built at import:
    [[{'label': x, 'value': x}
      for x in vehicle_registration_df['CD_CL_FUEL_ENG'].unique()]] *)
Definition vehicle_type_options (g : Globals) : result (list type_option) :=
  fuel <- getitem (vehicle_registration_df g) "CD_CL_FUEL_ENG" ;;
  Ok (map (fun x => mkTypeOption x x) (unique (s_values fuel))).

(** Line 75: the dropdown's initial value. *)
Definition vehicle_type_default : string := "All".

(** The import of the script up to the layout: lines 12-24 build the
    globals and line 74 reads the fuel column for the dropdown; an
    exception there ends the import before any callback exists. *)
Definition import_script (csv_vehicle csv_transport csv_bike : DataFrame)
    : result Globals :=
  let g := load csv_vehicle csv_transport csv_bike in
  _ <- vehicle_type_options g ;;
  Ok g.

(** ** Vocabulary of the properties *)

(** [needle] occurs in [s]. *)
Fixpoint occurs (needle s : string) : bool :=
  String.prefix needle s
  || match s with
     | EmptyString => false
     | String _ s' => occurs needle s'
     end.

(** An explicit "no data" figure: nothing is drawn and the title says
    that the data is missing, as the placeholder titles of the script
    do ("... Data Missing or Incorrect"). *)
Definition draws_nothing (fig : Figure) : bool :=
  match data fig with
  | Heatmap [] _ _ _ _ => true
  | Heatmap (_ :: _) _ _ _ _ => false
  | _ => match marks fig with [] => true | _ :: _ => false end
  end.

Definition is_no_data (fig : Figure) : bool :=
  match title (layout fig) with
  | Some t => draws_nothing fig && occurs "Data Missing" t
  | None => false
  end.

(** No cell of the frame is a missing-value marker. *)
Definition no_missing (df : DataFrame) : Prop :=
  Forall (fun c => Forall (fun v => isna v = false) (s_values (snd c))) df.

(** The frame without the column [label]. *)
Definition drop (label : string) (df : DataFrame) : DataFrame :=
  filter (fun c => negb (String.eqb (fst c) label)) df.

Definition scalar_eq_dec (a b : scalar) : {a = b} + {a <> b}.
Proof.
  decide equality;
    try apply Z.eq_dec; try apply string_dec; try apply bool_dec.
  decide equality;
    try apply Z.eq_dec; try apply Pos.eq_dec; try apply bool_dec.
Defined.

(** The distinct values of a list. *)
Definition distinct (l : list scalar) : list scalar := nodup scalar_eq_dec l.

Definition option_add (a b : option Z) : option Z :=
  match a, b with
  | Some x, Some y => Some (x + y)%Z
  | _, _ => None
  end.

(** Sum of a list of integer cells; [None] if a cell is not an
    integer (float heights are added in double arithmetic, which is
    left out). *)
Fixpoint int_sum (l : list scalar) : option Z :=
  match l with
  | [] => Some 0%Z
  | PyInt z :: l' => option_add (Some z) (int_sum l')
  | _ :: _ => None
  end.

(** Height of the stack a bar chart draws at position [x], for integer
    heights. *)
Definition stacked_height (ms : list (scalar * scalar)) (x : scalar) : option Z :=
  int_sum (map snd (filter (fun m => if scalar_eq_dec (fst m) x then true else false) ms)).

(** The rows the vehicle view draws for a filter value. *)
Definition keeps (selected_vehicle_type : string) (r : record) : bool :=
  if String.eqb selected_vehicle_type "All" then true
  else cell_eq_str selected_vehicle_type (field r "CD_CL_FUEL_ENG").

Definition drawn_rows (df : DataFrame) (selected_vehicle_type : string) : list record :=
  filter (keeps selected_vehicle_type) (rows df).

(** Binary64 literals used in the examples. *)
Definition f64 (neg : bool) (m : positive) (e : Z) : scalar := PyFloat (S754_finite neg m e).

(** *** Example frames *)

(** The three vehicle rows of the scenario. *)
Definition vehicle_rows : DataFrame :=
  [ ("POSTCODE", mkSeries int64 [PyInt 3000; PyInt 3000; PyInt 3001]);
    ("CD_CL_FUEL_ENG", mkSeries object [PyStr "P"; PyStr "D"; PyStr "P"]);
    ("TOTAL1", mkSeries int64 [PyInt 10; PyInt 5; PyInt 7]) ].

(** A vehicle file with one missing fuel code. *)
Definition vehicle_gap : DataFrame :=
  [ ("POSTCODE", mkSeries int64 [PyInt 3000; PyInt 3001]);
    ("CD_CL_FUEL_ENG", mkSeries object [PyStr "P"; NaN]);
    ("TOTAL1", mkSeries float64 [f64 false (5 * 2 ^ 50) (-49); NaN]) ].

(** A station file: two years of entries for one stop. *)
Definition transport_rows : DataFrame :=
  [ ("Fin_year", mkSeries object [PyStr "FY22-23"; PyStr "FY23-24"]);
    ("Stop_name", mkSeries object [PyStr "Richmond"; PyStr "Richmond"]);
    ("Pax_annual", mkSeries int64 [PyInt 3500000; PyInt 3900000]) ].

(** A bicycle file whose first row has no latitude:
    (NaN, 144.5) and (-37.75, 145.0). *)
Definition bike_rows : DataFrame :=
  [ ("Latitude", mkSeries float64 [NaN; f64 true (151 * 2 ^ 45) (-47)]);
    ("Longitude", mkSeries float64
       [f64 false (289 * 2 ^ 44) (-45); f64 false (145 * 2 ^ 45) (-45)]);
    ("local_name", mkSeries object [PyStr "Yarra Trail"; PyStr "Canning St"]);
    ("facility_left", mkSeries object [PyStr "Path"; NaN]);
    ("facility_right", mkSeries object [PyStr "Path"; PyStr "Lane"]);
    ("bearing", mkSeries int64 [PyInt 90; PyInt 180]) ].


(** The file behind a dataset key, as both selector chains read it. *)
Definition selected_csv (csv_vehicle csv_transport csv_bike : DataFrame)
    (selected_dataset : string) : DataFrame :=
  if String.eqb selected_dataset "vehicle" then csv_vehicle
  else if String.eqb selected_dataset "transport" then csv_transport
  else csv_bike.

Definition is_numeric (dt : dtype) : bool :=
  match dt with
  | int64 | float64 => true
  | _ => false
  end.

(** The frame without its first row. *)
Definition tail_rows (df : DataFrame) : DataFrame :=
  map (fun c => (fst c, mkSeries (s_dtype (snd c)) (tl (s_values (snd c))))) df.

(** A cell a column of the given dtype can hold. *)
Definition cell_of_dtype (dt : dtype) (v : scalar) : bool :=
  match dt, v with
  | int64, PyInt _ => true
  | float64, PyFloat _ => true
  | bool_, PyBool _ => true
  | object, _ => true
  | _, _ => false
  end.

Definition well_typed (df : DataFrame) : Prop :=
  Forall (fun c => Forall (fun v => cell_of_dtype (s_dtype (snd c)) v = true)
                     (s_values (snd c))) df.

(** A vehicle file in which one fuel code is not offered twice. *)
Definition vehicle_codes : DataFrame :=
  [ ("POSTCODE", mkSeries int64 [PyInt 3000; PyInt 3000; PyInt 3001; PyInt 3002]);
    ("CD_CL_FUEL_ENG", mkSeries object [PyStr "P"; PyStr "D"; PyStr "P"; NaN]);
    ("TOTAL1", mkSeries int64 [PyInt 10; PyInt 5; PyInt 7; PyInt 1]) ].

(** The figure the vehicle view builds from a frame without rows. *)
Definition empty_vehicle_chart (selected_vehicle_type : string) : Figure :=
  mkFigure (Bar [] [] ["#636EFA"])
    (mkLayout (Some ("Vehicle Registrations for " ++ selected_vehicle_type))
       (Some "Postcode") (Some "Number of Vehicles") (Some "#F9F9F9") (Some "#F9F9F9")
       None None None None).

(** * Properties *)

(** ** Facts about frames *)

Section FrameFacts.

Lemma contains_In (l : string) (cols : list string) :
  contains l cols = true <-> In l cols.
Proof.
  unfold contains. rewrite existsb_exists. split.
  - intros [x [Hin Heq]]. apply String.eqb_eq in Heq. now subst.
  - intros Hin. exists l. split; [assumption | apply String.eqb_refl].
Qed.

Lemma getitem_present (df : DataFrame) (l : string) :
  contains l (columns df) = true -> exists s, getitem df l = Ok s.
Proof.
  induction df as [| [n s] df IH]; simpl; [discriminate |].
  rewrite String.eqb_sym.
  destruct (String.eqb n l); simpl; eauto.
Qed.

Lemma getitem_absent (df : DataFrame) (l : string) :
  contains l (columns df) = false -> getitem df l = Raise (KeyError l).
Proof.
  induction df as [| [n s] df IH]; simpl; [reflexivity |].
  rewrite String.eqb_sym.
  destruct (String.eqb n l); simpl; [discriminate | exact IH].
Qed.

Lemma getitem_contains (df : DataFrame) (l : string) (s : Series) :
  getitem df l = Ok s -> contains l (columns df) = true.
Proof.
  intros H. destruct (contains l (columns df)) eqn:E; [reflexivity |].
  rewrite (getitem_absent _ _ E) in H. discriminate.
Qed.

Lemma getitem_In (df : DataFrame) (l : string) (s : Series) :
  getitem df l = Ok s -> In (l, s) df.
Proof.
  induction df as [| [n c] df IH]; simpl; [discriminate |].
  destruct (String.eqb n l) eqn:E.
  - intros H. injection H as ->. apply String.eqb_eq in E. subst. now left.
  - intros H. right. now apply IH.
Qed.

Lemma getitem_length (df : DataFrame) (l : string) (s : Series) :
  rectangular df -> getitem df l = Ok s -> List.length (s_values s) = nrows df.
Proof.
  intros Hrect H. apply getitem_In in H.
  unfold rectangular in Hrect. rewrite Forall_forall in Hrect.
  exact (Hrect _ H).
Qed.

Lemma columns_fillna (df : DataFrame) : columns (fillna df) = columns df.
Proof. unfold columns, fillna. rewrite map_map. reflexivity. Qed.

Lemma columns_getitem_mask (df : DataFrame) (m : list bool) :
  columns (getitem_mask df m) = columns df.
Proof. unfold columns, getitem_mask. rewrite map_map. reflexivity. Qed.

Lemma getitem_fillna (df : DataFrame) (l : string) :
  getitem (fillna df) l =
  match getitem df l with
  | Ok s => Ok (fillna_series s)
  | Raise e => Raise e
  end.
Proof.
  induction df as [| [n c] df IH]; simpl; [reflexivity |].
  destruct (String.eqb n l); [reflexivity | exact IH].
Qed.

Lemma getitem_getitem_mask (df : DataFrame) (m : list bool) (l : string) :
  getitem (getitem_mask df m) l =
  match getitem df l with
  | Ok s => Ok (mkSeries (s_dtype s) (take_mask m (s_values s)))
  | Raise e => Raise e
  end.
Proof.
  induction df as [| [n c] df IH]; simpl; [reflexivity |].
  destruct (String.eqb n l); [reflexivity | exact IH].
Qed.

Lemma nrows_fillna (df : DataFrame) : nrows (fillna df) = nrows df.
Proof. destruct df as [| [n c] df]; simpl; [reflexivity | apply length_map]. Qed.

Lemma rectangular_fillna (df : DataFrame) : rectangular df -> rectangular (fillna df).
Proof.
  unfold rectangular. rewrite nrows_fillna. unfold fillna.
  rewrite Forall_map. apply Forall_impl.
  intros [n c] H. simpl in *. now rewrite length_map.
Qed.

Lemma contains_drop (l : string) (df : DataFrame) :
  contains l (columns (drop l df)) = false.
Proof.
  induction df as [| [n c] df IH]; simpl; [reflexivity |].
  destruct (String.eqb n l) eqn:E; simpl; [exact IH |].
  rewrite String.eqb_sym, E. exact IH.
Qed.

Lemma field_row_at (df : DataFrame) (l : string) (s : Series) (i : nat) :
  getitem df l = Ok s -> field (row_at df i) l = nth i (s_values s) PyNone.
Proof.
  induction df as [| [n c] df IH]; simpl; [discriminate |].
  destruct (String.eqb n l).
  - intros H. now injection H as ->.
  - exact IH.
Qed.

Lemma filter_map_comm {A B} (p : B -> bool) (f : A -> B) (l : list A) :
  filter p (map f l) = map f (filter (fun a => p (f a)) l).
Proof.
  induction l as [| a l IH]; simpl; [reflexivity |].
  destruct (p (f a)); simpl; now rewrite IH.
Qed.

(** Masking two columns with one mask and pairing them is the same
    as walking the row numbers, keeping those the mask keeps. *)
Lemma combine_take_mask (p : scalar -> bool) (fs xs ys : list scalar) :
  List.length xs = List.length fs -> List.length ys = List.length fs ->
  combine (take_mask (map p fs) xs) (take_mask (map p fs) ys) =
  map (fun i => (nth i xs PyNone, nth i ys PyNone))
      (filter (fun i => p (nth i fs PyNone)) (seq 0 (List.length fs))).
Proof.
  revert xs ys.
  induction fs as [| f fs IH]; intros xs ys Hx Hy.
  - destruct xs; reflexivity.
  - destruct xs as [| x xs]; [discriminate |].
    destruct ys as [| y ys]; [discriminate |].
    simpl in Hx, Hy. injection Hx as Hx. injection Hy as Hy.
    cbn [List.length seq filter map take_mask nth].
    rewrite <- seq_shift, filter_map_comm.
    destruct (p f); cbn [combine map]; rewrite map_map;
      now rewrite (IH xs ys Hx Hy).
Qed.

Lemma take_mask_all {A} (l : list A) (fs : list scalar) :
  List.length l = List.length fs ->
  take_mask (map (fun _ => true) fs) l = l.
Proof.
  revert l. induction fs as [| f fs IH]; intros [| a l] H; try discriminate; simpl.
  - reflexivity.
  - injection H as H. now rewrite IH.
Qed.

(** Two columns of a rectangular frame, masked by a test on a third
    and paired, are the pairs of the rows that pass the test. *)
Lemma masked_pairs_rows (df : DataFrame) (lx ly lf : string) (sx sy sf : Series)
      (p : scalar -> bool) :
  rectangular df ->
  getitem df lx = Ok sx -> getitem df ly = Ok sy -> getitem df lf = Ok sf ->
  combine (take_mask (map p (s_values sf)) (s_values sx))
          (take_mask (map p (s_values sf)) (s_values sy)) =
  map (fun r => (field r lx, field r ly))
      (filter (fun r => p (field r lf)) (rows df)).
Proof.
  intros Hrect Hx Hy Hf.
  pose proof (getitem_length _ _ _ Hrect Hx) as Lx.
  pose proof (getitem_length _ _ _ Hrect Hy) as Ly.
  pose proof (getitem_length _ _ _ Hrect Hf) as Lf.
  rewrite combine_take_mask by congruence.
  unfold rows. rewrite filter_map_comm, map_map, Lf.
  rewrite (filter_ext (fun i => p (nth i (s_values sf) PyNone))
                      (fun i => p (field (row_at df i) lf))).
  - apply map_ext. intros i.
    now rewrite (field_row_at _ _ _ i Hx), (field_row_at _ _ _ i Hy).
  - intros i. now rewrite (field_row_at _ _ _ i Hf).
Qed.

Lemma pairs_rows (df : DataFrame) (lx ly : string) (sx sy : Series) :
  rectangular df ->
  getitem df lx = Ok sx -> getitem df ly = Ok sy ->
  combine (s_values sx) (s_values sy) =
  map (fun r => (field r lx, field r ly)) (rows df).
Proof.
  intros Hrect Hx Hy.
  pose proof (getitem_length _ _ _ Hrect Hx) as Lx.
  pose proof (getitem_length _ _ _ Hrect Hy) as Ly.
  pose proof (masked_pairs_rows df lx ly lx sx sy sx (fun _ => true) Hrect Hx Hy Hx) as H.
  rewrite !take_mask_all in H by congruence.
  rewrite H. f_equal.
  clear. induction (rows df) as [| r l IH]; simpl; [reflexivity | now rewrite IH].
Qed.

End FrameFacts.

(** ** The vehicle-registrations view *)

Section VehicleView.

Variable g : Globals.
Let vehicle := vehicle_registration_df g.

Hypothesis Hrect : rectangular vehicle.
Hypothesis Hpostcode : contains "POSTCODE" (columns vehicle) = true.
Hypothesis Htotal : contains "TOTAL1" (columns vehicle) = true.

(** With its columns in place the view draws one rectangle per kept
    row, in row order: [x] is the row's postcode and [y] its total. *)
Lemma vehicle_view_marks (selected_vehicle_type : string) :
  selected_vehicle_type = "All"
  \/ contains "CD_CL_FUEL_ENG" (columns vehicle) = true ->
  exists fig,
    update_vehicle_registrations_graph g selected_vehicle_type = Ok fig
    /\ marks fig =
       map (fun r => (field r "POSTCODE", field r "TOTAL1"))
           (drawn_rows vehicle selected_vehicle_type)
    /\ title (layout fig) = Some ("Vehicle Registrations for " ++ selected_vehicle_type).
Proof.
  intros Hfuel.
  destruct (getitem_present _ _ Hpostcode) as [sx Hx].
  destruct (getitem_present _ _ Htotal) as [sy Hy].
  unfold update_vehicle_registrations_graph, drawn_rows, keeps.
  fold vehicle.
  destruct (String.eqb selected_vehicle_type "All") eqn:E.
  - cbn [bind]. rewrite Hpostcode, Htotal. cbn [negb orb].
    unfold px_bar, px_column. rewrite Hx, Hy. cbn [bind].
    eexists. split; [reflexivity |]. split; [| reflexivity].
    unfold marks. cbn [data update_bgcolor update_axis_titles].
    rewrite (pairs_rows vehicle _ _ sx sy Hrect Hx Hy). f_equal.
    clear. induction (rows vehicle) as [| r l IH]; simpl; [reflexivity | now rewrite <- IH].
  - destruct Hfuel as [-> | Hfuel]; [discriminate |].
    destruct (getitem_present _ _ Hfuel) as [sf Hf].
    rewrite Hf. cbn [bind].
    rewrite columns_getitem_mask, Hpostcode, Htotal. cbn [negb orb].
    unfold px_bar, px_column. rewrite !getitem_getitem_mask, Hx, Hy. cbn [bind s_values].
    eexists. split; [reflexivity |]. split; [| reflexivity].
    unfold marks, eq_str. cbn [data update_bgcolor update_axis_titles].
    apply (masked_pairs_rows vehicle _ _ _ sx sy sf _ Hrect Hx Hy Hf).
Qed.

End VehicleView.

(** If the fuel column is missing and a type is selected, the lookup
    on line 149 raises before the guard on line 151 is reached. *)
Lemma vehicle_view_without_fuel_column (g : Globals) (selected_vehicle_type : string) :
  selected_vehicle_type <> "All" ->
  contains "CD_CL_FUEL_ENG" (columns (vehicle_registration_df g)) = false ->
  update_vehicle_registrations_graph g selected_vehicle_type
  = Raise (KeyError "CD_CL_FUEL_ENG").
Proof.
  intros Hne Habs. unfold update_vehicle_registrations_graph.
  destruct (String.eqb selected_vehicle_type "All") eqn:E.
  - apply String.eqb_eq in E. contradiction.
  - now rewrite (getitem_absent _ _ Habs).
Qed.

(** If [POSTCODE] or [TOTAL1] is missing the guard on line 151 answers
    with the placeholder, provided line 149 did not raise. *)
Lemma vehicle_view_placeholder (g : Globals) (selected_vehicle_type : string) :
  selected_vehicle_type = "All"
  \/ contains "CD_CL_FUEL_ENG" (columns (vehicle_registration_df g)) = true ->
  contains "POSTCODE" (columns (vehicle_registration_df g)) = false
  \/ contains "TOTAL1" (columns (vehicle_registration_df g)) = false ->
  update_vehicle_registrations_graph g selected_vehicle_type
  = Ok (px_bar_blank "Vehicle Registration Data Missing or Incorrect").
Proof.
  intros Hfuel Hmiss. unfold update_vehicle_registrations_graph.
  destruct (String.eqb selected_vehicle_type "All") eqn:E.
  - cbn [bind]. destruct Hmiss as [-> | ->]; cbn [negb orb]; [reflexivity |].
    now rewrite orb_true_r.
  - destruct Hfuel as [-> | Hfuel]; [discriminate |].
    destruct (getitem_present _ _ Hfuel) as [sf ->]. cbn [bind].
    rewrite columns_getitem_mask.
    destruct Hmiss as [-> | ->]; cbn [negb orb]; [reflexivity |].
    now rewrite orb_true_r.
Qed.

Lemma cell_eq_str_iff (v : string) (c : scalar) :
  cell_eq_str v c = true <-> c = PyStr v.
Proof.
  destruct c; simpl; split; try discriminate.
  - intros H. apply String.eqb_eq in H. now subst.
  - intros H. injection H as ->. apply String.eqb_refl.
Qed.

Lemma drawn_rows_all (df : DataFrame) : drawn_rows df "All" = rows df.
Proof.
  unfold drawn_rows, keeps. cbn [String.eqb Ascii.eqb Bool.eqb andb].
  induction (rows df) as [| r l IH]; simpl; [reflexivity | now rewrite IH].
Qed.

Lemma drawn_rows_type (df : DataFrame) (selected_vehicle_type : string) :
  selected_vehicle_type <> "All" ->
  drawn_rows df selected_vehicle_type =
  filter (fun r => cell_eq_str selected_vehicle_type (field r "CD_CL_FUEL_ENG")) (rows df).
Proof.
  intros Hne. unfold drawn_rows, keeps.
  destruct (String.eqb selected_vehicle_type "All") eqn:E; [| reflexivity].
  apply String.eqb_eq in E. contradiction.
Qed.

Lemma stacked_height_pairs (rs : list record) (x : scalar) :
  stacked_height (map (fun r => (field r "POSTCODE", field r "TOTAL1")) rs) x =
  int_sum (map (fun r => field r "TOTAL1")
             (filter (fun r => if scalar_eq_dec (field r "POSTCODE") x then true else false)
                rs)).
Proof.
  unfold stacked_height. rewrite filter_map_comm, map_map. reflexivity.
Qed.

(** C1, as the script behaves.  On the three-row scenario the filter
    "All" draws the three rectangles (3000, 10), (3000, 5), (3001, 7),
    which stack to 15 at postcode 3000 and 7 at 3001; the filter "P"
    draws (3000, 10) and (3001, 7); the filter "p" draws nothing.  In
    general "All" draws every row of the vehicle frame, and any other
    value draws exactly the rows whose CD_CL_FUEL_ENG cell is that very
    string, one rectangle per row. *)
Theorem vehicle_view_scenario_and_filter :
  (exists fig,
     update_vehicle_registrations_graph (load vehicle_rows [] []) "All" = Ok fig
     /\ marks fig = [(PyInt 3000, PyInt 10); (PyInt 3000, PyInt 5); (PyInt 3001, PyInt 7)]
     /\ stacked_height (marks fig) (PyInt 3000) = Some 15%Z
     /\ stacked_height (marks fig) (PyInt 3001) = Some 7%Z)
  /\ (exists fig,
     update_vehicle_registrations_graph (load vehicle_rows [] []) "P" = Ok fig
     /\ marks fig = [(PyInt 3000, PyInt 10); (PyInt 3001, PyInt 7)])
  /\ (exists fig,
     update_vehicle_registrations_graph (load vehicle_rows [] []) "p" = Ok fig
     /\ marks fig = [])
  /\ (forall g : Globals,
        rectangular (vehicle_registration_df g) ->
        contains "POSTCODE" (columns (vehicle_registration_df g)) = true ->
        contains "TOTAL1" (columns (vehicle_registration_df g)) = true ->
        contains "CD_CL_FUEL_ENG" (columns (vehicle_registration_df g)) = true ->
        (exists fig,
           update_vehicle_registrations_graph g "All" = Ok fig
           /\ marks fig =
              map (fun r => (field r "POSTCODE", field r "TOTAL1"))
                  (rows (vehicle_registration_df g)))
        /\ (forall v : string, v <> "All" ->
            exists fig,
              update_vehicle_registrations_graph g v = Ok fig
              /\ marks fig =
                 map (fun r => (field r "POSTCODE", field r "TOTAL1"))
                     (filter (fun r => cell_eq_str v (field r "CD_CL_FUEL_ENG"))
                        (rows (vehicle_registration_df g))))
        /\ (forall (v : string) (c : scalar), cell_eq_str v c = true <-> c = PyStr v)).
Proof.
  split; [| split; [| split]].
  - eexists. split; [vm_compute; reflexivity |]. repeat split.
  - eexists. split; [vm_compute; reflexivity |]. reflexivity.
  - eexists. split; [vm_compute; reflexivity |]. reflexivity.
  - intros g Hrect Hp Ht Hf. split; [| split].
    + destruct (vehicle_view_marks g Hrect Hp Ht "All" (or_introl eq_refl))
        as [fig [Hfig [Hm _]]].
      exists fig. split; [exact Hfig |]. now rewrite Hm, drawn_rows_all.
    + intros v Hne.
      destruct (vehicle_view_marks g Hrect Hp Ht v (or_intror Hf))
        as [fig [Hfig [Hm _]]].
      exists fig. split; [exact Hfig |]. now rewrite Hm, drawn_rows_type.
    + exact cell_eq_str_iff.
Qed.

Lemma rectangular_vehicle_rows : rectangular vehicle_rows.
Proof. repeat constructor. Qed.

Lemma vehicle_view_scenario_and_filter_witness :
  exists fig,
    update_vehicle_registrations_graph (load vehicle_rows [] []) "D" = Ok fig
    /\ marks fig =
       map (fun r => (field r "POSTCODE", field r "TOTAL1"))
           (filter (fun r => cell_eq_str "D" (field r "CD_CL_FUEL_ENG"))
              (rows (vehicle_registration_df (load vehicle_rows [] [])))).
Proof.
  refine (proj1 (proj2 (proj2 (proj2 (proj2 vehicle_view_scenario_and_filter))
            (load vehicle_rows [] []) _ _ _ _)) "D" _).
  - exact rectangular_vehicle_rows.
  - reflexivity.
  - reflexivity.
  - reflexivity.
  - discriminate.
Defined.

(** The scenario's "All" figure is not the two aggregated bars
    {3000: 15, 3001: 7}. *)
Lemma vehicle_scenario_all_is_not_aggregated :
  ~ exists fig,
      update_vehicle_registrations_graph (load vehicle_rows [] []) "All" = Ok fig
      /\ marks fig = [(PyInt 3000, PyInt 15); (PyInt 3001, PyInt 7)].
Proof.
  intros [fig [Hfig Hm]]. vm_compute in Hfig. injection Hfig as <-.
  discriminate Hm.
Qed.

(** C2, as the script behaves.  With POSTCODE, TOTAL1 and the fuel
    column in place, the view draws exactly one rectangle per kept row
    (not one per distinct postcode), at the row's postcode and as high
    as the row's TOTAL1, and sums nothing itself: the heights are the
    kept rows' TOTAL1 values, so any way of totalling them gives the
    kept rows' total, and the rectangles stacked at a postcode carry
    exactly the TOTAL1 values of the kept rows of that postcode (for
    integer totals the height of the stack is their sum). *)
Theorem vehicle_view_one_mark_per_row
    (g : Globals) (selected_vehicle_type : string)
    (Hrect : rectangular (vehicle_registration_df g))
    (Hpostcode : contains "POSTCODE" (columns (vehicle_registration_df g)) = true)
    (Htotal : contains "TOTAL1" (columns (vehicle_registration_df g)) = true)
    (Hfuel : contains "CD_CL_FUEL_ENG" (columns (vehicle_registration_df g)) = true) :
  exists fig,
    update_vehicle_registrations_graph g selected_vehicle_type = Ok fig
    /\ marks fig
       = map (fun r => (field r "POSTCODE", field r "TOTAL1"))
             (drawn_rows (vehicle_registration_df g) selected_vehicle_type)
    /\ List.length (marks fig)
       = List.length (drawn_rows (vehicle_registration_df g) selected_vehicle_type)
    /\ map snd (marks fig)
       = map (fun r => field r "TOTAL1")
             (drawn_rows (vehicle_registration_df g) selected_vehicle_type)
    /\ (forall (A : Type) (total : list scalar -> A),
          total (map snd (marks fig))
          = total (map (fun r => field r "TOTAL1")
                     (drawn_rows (vehicle_registration_df g) selected_vehicle_type)))
    /\ (forall postcode : scalar,
          map snd (filter (fun m => if scalar_eq_dec (fst m) postcode then true else false)
                     (marks fig))
          = map (fun r => field r "TOTAL1")
              (filter (fun r => if scalar_eq_dec (field r "POSTCODE") postcode
                                then true else false)
                 (drawn_rows (vehicle_registration_df g) selected_vehicle_type))
          /\ stacked_height (marks fig) postcode
             = int_sum (map (fun r => field r "TOTAL1")
                  (filter (fun r => if scalar_eq_dec (field r "POSTCODE") postcode
                                    then true else false)
                     (drawn_rows (vehicle_registration_df g) selected_vehicle_type)))).
Proof.
  destruct (vehicle_view_marks g Hrect Hpostcode Htotal selected_vehicle_type
              (or_intror Hfuel)) as [fig [Hfig [Hm _]]].
  exists fig. split; [exact Hfig |]. split; [exact Hm |]. rewrite Hm.
  split; [now rewrite length_map |].
  assert (Hsnd : forall rs : list record,
             map snd (map (fun r => (field r "POSTCODE", field r "TOTAL1")) rs)
             = map (fun r => field r "TOTAL1") rs)
    by (intros rs; now rewrite map_map).
  split; [apply Hsnd |].
  split; [intros A total; now rewrite Hsnd |].
  intros postcode. split.
  - now rewrite filter_map_comm, Hsnd.
  - apply stacked_height_pairs.
Qed.

Lemma vehicle_view_one_mark_per_row_witness :
  exists fig,
    update_vehicle_registrations_graph (load vehicle_rows [] []) "P" = Ok fig
    /\ marks fig = [(PyInt 3000, PyInt 10); (PyInt 3001, PyInt 7)]
    /\ List.length (marks fig) = 2
    /\ map snd (marks fig) = [PyInt 10; PyInt 7]
    /\ stacked_height (marks fig) (PyInt 3000) = Some 10%Z.
Proof.
  destruct (vehicle_view_one_mark_per_row (load vehicle_rows [] []) "P"
              rectangular_vehicle_rows eq_refl eq_refl eq_refl)
    as [fig [Hfig [Hm [Hlen [Hsnd [_ Hstack]]]]]].
  exists fig. split; [exact Hfig |].
  split; [exact Hm |]. split; [exact Hlen |]. split; [exact Hsnd |].
  exact (proj2 (Hstack (PyInt 3000))).
Defined.

(** On the scenario with filter "All" the figure has three rectangles
    for two distinct postcodes. *)
Lemma vehicle_scenario_marks_exceed_postcodes :
  ~ exists fig,
      update_vehicle_registrations_graph (load vehicle_rows [] []) "All" = Ok fig
      /\ List.length (marks fig)
         = List.length
             (distinct (map (fun r => field r "POSTCODE")
                          (drawn_rows (vehicle_registration_df (load vehicle_rows [] []))
                             "All"))).
Proof.
  intros [fig [Hfig Hlen]]. vm_compute in Hfig. injection Hfig as <-.
  vm_compute in Hlen. discriminate Hlen.
Qed.

(** ** Column guards *)

Lemma contains_drop_other (l c : string) (df : DataFrame) :
  l <> c -> contains l (columns (drop c df)) = contains l (columns df).
Proof.
  intros Hne. induction df as [| [n s] df IH]; simpl; [reflexivity |].
  destruct (String.eqb n c) eqn:E; simpl.
  - apply String.eqb_eq in E. subst n.
    destruct (String.eqb l c) eqn:E'; [| exact IH].
    apply String.eqb_eq in E'. contradiction.
  - now rewrite IH.
Qed.

Lemma transport_view_placeholder (g : Globals) (selected_dataset : string) :
  contains "Fin_year" (columns (public_transport_df g)) = false
  \/ contains "Pax_annual" (columns (public_transport_df g)) = false ->
  update_public_transport_graph g selected_dataset
  = Ok (px_line_blank "Public Transport Data Missing or Incorrect").
Proof.
  intros H. unfold update_public_transport_graph.
  destruct H as [-> | ->]; cbn [negb orb]; [reflexivity |].
  now rewrite orb_true_r.
Qed.

Lemma length_take_mask_same {A B} (m : list bool) (a : list A) (b : list B) :
  List.length a = List.length b ->
  List.length (take_mask m a) = List.length (take_mask m b).
Proof.
  revert a b. induction m as [| x m IH]; intros [| u a] [| v b] H;
    try discriminate; try reflexivity.
  injection H as H. cbn [take_mask]. destruct x; cbn [List.length]; auto.
Qed.

(** The guard of the map view calls [px.scatter_mapbox] without a
    frame, and that call raises. *)
Lemma bike_view_guard_raises (g : Globals) (selected_dataset : string) :
  contains "Latitude" (columns (bicycle_network_df g)) = false
  \/ contains "Longitude" (columns (bicycle_network_df g)) = false ->
  update_bike_infrastructure_map g selected_dataset = Raise KeyError_None.
Proof.
  intros H. unfold update_bike_infrastructure_map.
  destruct H as [-> | ->]; cbn [negb orb]; [reflexivity |].
  now rewrite orb_true_r.
Qed.

Lemma import_script_Ok (csv_vehicle csv_transport csv_bike : DataFrame) (g : Globals) :
  import_script csv_vehicle csv_transport csv_bike = Ok g ->
  g = load csv_vehicle csv_transport csv_bike
  /\ contains "CD_CL_FUEL_ENG" (columns csv_vehicle) = true.
Proof.
  unfold import_script, vehicle_type_options.
  cbn [load vehicle_registration_df].
  destruct (getitem (fillna csv_vehicle) "CD_CL_FUEL_ENG") as [s | e] eqn:E;
    cbn [bind]; [| discriminate].
  intros H. injection H as <-. split; [reflexivity |].
  rewrite <- (columns_fillna csv_vehicle). exact (getitem_contains _ _ _ E).
Qed.

Lemma combine_nil_same_length {A B} (a : list A) (b : list B) :
  List.length a = List.length b -> combine a b = [] -> a = [] /\ b = [].
Proof. destruct a, b; cbn; try discriminate; auto. Qed.

(** The figure of the vehicle view, in full. *)
Lemma vehicle_view_figure (g : Globals) (selected_vehicle_type : string) :
  rectangular (vehicle_registration_df g) ->
  contains "POSTCODE" (columns (vehicle_registration_df g)) = true ->
  contains "TOTAL1" (columns (vehicle_registration_df g)) = true ->
  selected_vehicle_type = "All"
  \/ contains "CD_CL_FUEL_ENG" (columns (vehicle_registration_df g)) = true ->
  exists xs ys,
    update_vehicle_registrations_graph g selected_vehicle_type
    = Ok (mkFigure (Bar xs ys ["#636EFA"])
            (mkLayout (Some ("Vehicle Registrations for " ++ selected_vehicle_type))
               (Some "Postcode") (Some "Number of Vehicles")
               (Some "#F9F9F9") (Some "#F9F9F9") None None None None))
    /\ List.length xs = List.length ys
    /\ combine xs ys
       = map (fun r => (field r "POSTCODE", field r "TOTAL1"))
           (drawn_rows (vehicle_registration_df g) selected_vehicle_type).
Proof.
  intros Hrect Hp Ht Hfuel.
  destruct (getitem_present _ _ Hp) as [sx Hx].
  destruct (getitem_present _ _ Ht) as [sy Hy].
  pose proof (getitem_length _ _ _ Hrect Hx) as Lx.
  pose proof (getitem_length _ _ _ Hrect Hy) as Ly.
  destruct (vehicle_view_marks g Hrect Hp Ht selected_vehicle_type Hfuel)
    as [fig [Hfig [Hm _]]].
  revert Hfig. unfold update_vehicle_registrations_graph.
  destruct (String.eqb selected_vehicle_type "All") eqn:E.
  - cbn [bind]. rewrite Hp, Ht. cbn [negb orb].
    unfold px_bar, px_column. rewrite Hx, Hy. cbn [bind].
    intros Hfig. injection Hfig as <-.
    exists (s_values sx), (s_values sy).
    split; [reflexivity |]. split; [congruence | exact Hm].
  - destruct Hfuel as [-> | Hfuel]; [discriminate |].
    destruct (getitem_present _ _ Hfuel) as [sf Hf].
    rewrite Hf. cbn [bind].
    rewrite columns_getitem_mask, Hp, Ht. cbn [negb orb].
    unfold px_bar, px_column. rewrite !getitem_getitem_mask, Hx, Hy. cbn [bind s_values].
    intros Hfig. injection Hfig as <-.
    eexists. eexists. split; [reflexivity |].
    split; [apply length_take_mask_same; congruence | exact Hm].
Qed.

(** C3, as the script behaves.  In every state the script reaches by
    a successful import: with Fin_year or Pax_annual taken out of the
    station file the time-series view answers with its placeholder;
    with POSTCODE or TOTAL1 taken out of the vehicle file the bar view
    answers with its placeholder, for every filter; both placeholders
    are "no data" figures.  Each view reads its own file only, so what
    is taken out of another file never changes its answer.  A filter
    that keeps no row is not answered with a placeholder: the view
    returns the bar chart without rectangles under the title "Vehicle
    Registrations for <filter>", whose title speaks of missing data
    only if the filter text does. *)
Theorem missing_column_views
    (csv_vehicle csv_transport csv_bike : DataFrame) (selected_dataset : string) :
  (forall (c : string) (g : Globals),
     c = "Fin_year" \/ c = "Pax_annual" ->
     import_script csv_vehicle (drop c csv_transport) csv_bike = Ok g ->
     update_public_transport_graph g selected_dataset
     = Ok (px_line_blank "Public Transport Data Missing or Incorrect"))
  /\ (forall (c v : string) (g : Globals),
     c = "POSTCODE" \/ c = "TOTAL1" ->
     import_script (drop c csv_vehicle) csv_transport csv_bike = Ok g ->
     update_vehicle_registrations_graph g v
     = Ok (px_bar_blank "Vehicle Registration Data Missing or Incorrect"))
  /\ (is_no_data (px_line_blank "Public Transport Data Missing or Incorrect") = true
      /\ is_no_data (px_bar_blank "Vehicle Registration Data Missing or Incorrect") = true)
  /\ (forall (vehicle' transport' bike' : DataFrame) (g g' : Globals) (v : string)
        (cols : option (list string)) (cs : color_scale),
      import_script csv_vehicle csv_transport csv_bike = Ok g ->
      (import_script vehicle' csv_transport bike' = Ok g' ->
       update_public_transport_graph g' selected_dataset
       = update_public_transport_graph g selected_dataset
       /\ update_correlation_heatmap g' "transport" cols cs
          = update_correlation_heatmap g "transport" cols cs)
      /\ (import_script csv_vehicle transport' bike' = Ok g' ->
          update_vehicle_registrations_graph g' v = update_vehicle_registrations_graph g v
          /\ update_correlation_heatmap g' "vehicle" cols cs
             = update_correlation_heatmap g "vehicle" cols cs)
      /\ (import_script vehicle' transport' csv_bike = Ok g' ->
          update_bike_infrastructure_map g' selected_dataset
          = update_bike_infrastructure_map g selected_dataset
          /\ update_correlation_heatmap g' "bike" cols cs
             = update_correlation_heatmap g "bike" cols cs))
  /\ (forall (v : string) (g : Globals),
      import_script csv_vehicle csv_transport csv_bike = Ok g ->
      rectangular csv_vehicle ->
      contains "POSTCODE" (columns csv_vehicle) = true ->
      contains "TOTAL1" (columns csv_vehicle) = true ->
      drawn_rows (vehicle_registration_df g) v = [] ->
      update_vehicle_registrations_graph g v = Ok (empty_vehicle_chart v)
      /\ empty_vehicle_chart v
         <> px_bar_blank "Vehicle Registration Data Missing or Incorrect"
      /\ is_no_data (empty_vehicle_chart v)
         = occurs "Data Missing" ("Vehicle Registrations for " ++ v)).
Proof.
  split; [| split; [| split; [| split]]].
  - intros c g Hc Himp. apply import_script_Ok in Himp. destruct Himp as [-> _].
    apply transport_view_placeholder.
    cbn [load public_transport_df]. rewrite columns_fillna.
    destruct Hc as [-> | ->]; [left | right]; apply contains_drop.
  - intros c v g Hc Himp. apply import_script_Ok in Himp. destruct Himp as [-> Hfuel].
    apply vehicle_view_placeholder;
      cbn [load vehicle_registration_df]; rewrite columns_fillna.
    + now right.
    + destruct Hc as [-> | ->]; [left | right]; apply contains_drop.
  - split; reflexivity.
  - intros vehicle' transport' bike' g g' v cols cs Himp.
    apply import_script_Ok in Himp. destruct Himp as [-> _].
    split; [| split]; intros Himp'; apply import_script_Ok in Himp';
      destruct Himp' as [-> _]; split; reflexivity.
  - intros v g Himp Hrect Hp Ht Hempty.
    apply import_script_Ok in Himp. destruct Himp as [-> Hfuel].
    destruct (vehicle_view_figure (load csv_vehicle csv_transport csv_bike) v)
      as [xs [ys [Hfig [Hlen Hm]]]];
      cbn [load vehicle_registration_df]; rewrite ?columns_fillna;
      try assumption; [now apply rectangular_fillna | now right |].
    cbn [load vehicle_registration_df] in Hempty, Hm. rewrite Hempty in Hm.
    destruct (combine_nil_same_length _ _ Hlen Hm) as [-> ->].
    split; [exact Hfig |]. split; [discriminate | reflexivity].
Qed.

Lemma missing_column_views_witness :
  update_public_transport_graph
    (load vehicle_rows (drop "Pax_annual" transport_rows) bike_rows) "vehicle"
  = Ok (px_line_blank "Public Transport Data Missing or Incorrect")
  /\ update_vehicle_registrations_graph
       (load (drop "TOTAL1" vehicle_rows) transport_rows bike_rows) "P"
     = Ok (px_bar_blank "Vehicle Registration Data Missing or Incorrect")
  /\ update_vehicle_registrations_graph (load vehicle_rows transport_rows bike_rows) "E"
     = Ok (empty_vehicle_chart "E").
Proof.
  pose proof (missing_column_views vehicle_rows transport_rows bike_rows "vehicle")
    as [Ht [Hv [_ [_ He]]]].
  split; [| split].
  - apply (Ht "Pax_annual"
             (load vehicle_rows (drop "Pax_annual" transport_rows) bike_rows));
      [now right | reflexivity].
  - apply (Hv "TOTAL1" "P" (load (drop "TOTAL1" vehicle_rows) transport_rows bike_rows));
      [now right | reflexivity].
  - apply (He "E" (load vehicle_rows transport_rows bike_rows)).
    + reflexivity.
    + exact rectangular_vehicle_rows.
    + reflexivity.
    + reflexivity.
    + reflexivity.
Defined.

(** After a successful import a filter that keeps no row gets an
    empty chart, not a "no data" figure; with Latitude taken out of
    the bicycle file the map view raises instead of answering; and
    with the fuel column taken out of the vehicle file the import
    itself raises, before any view exists. *)
Lemma views_not_no_data :
  (exists g fig,
     import_script vehicle_rows transport_rows bike_rows = Ok g
     /\ update_vehicle_registrations_graph g "E" = Ok fig
     /\ drawn_rows (vehicle_registration_df g) "E" = []
     /\ is_no_data fig = false)
  /\ (exists g,
     import_script vehicle_rows transport_rows (drop "Latitude" bike_rows) = Ok g
     /\ update_bike_infrastructure_map g "bike" = Raise KeyError_None)
  /\ import_script (drop "CD_CL_FUEL_ENG" vehicle_rows) transport_rows bike_rows
     = Raise (KeyError "CD_CL_FUEL_ENG").
Proof.
  split; [| split].
  - eexists. eexists. split; [reflexivity |].
    split; [vm_compute; reflexivity |]. split; reflexivity.
  - eexists. split; reflexivity.
  - reflexivity.
Qed.

(** C8.  When Fin_year or Pax_annual is not a column of the station
    frame, the time-series view returns (it does not raise) a figure
    without points whose title is "Public Transport Data Missing or
    Incorrect". *)
Theorem transport_view_missing_column (g : Globals) (selected_dataset : string) :
  contains "Fin_year" (columns (public_transport_df g)) = false
  \/ contains "Pax_annual" (columns (public_transport_df g)) = false ->
  exists fig,
    update_public_transport_graph g selected_dataset = Ok fig
    /\ title (layout fig) = Some "Public Transport Data Missing or Incorrect"
    /\ marks fig = []
    /\ is_no_data fig = true.
Proof.
  intros H. eexists. split; [now apply transport_view_placeholder |].
  repeat split.
Qed.

Lemma transport_view_missing_column_witness :
  exists fig,
    update_public_transport_graph
      (load vehicle_rows (drop "Fin_year" transport_rows) bike_rows) "transport" = Ok fig
    /\ title (layout fig) = Some "Public Transport Data Missing or Incorrect"
    /\ marks fig = []
    /\ is_no_data fig = true.
Proof.
  apply (transport_view_missing_column
           (load vehicle_rows (drop "Fin_year" transport_rows) bike_rows) "transport").
  left. reflexivity.
Defined.

(** ** Import-time cleaning *)

Lemma fill_cell_not_na (dt : dtype) (v : scalar) : isna (fill_cell dt v) = false.
Proof.
  unfold fill_cell. destruct (isna v) eqn:E; [| exact E].
  now destruct dt.
Qed.

Lemma no_missing_fillna (df : DataFrame) : no_missing (fillna df).
Proof.
  unfold no_missing, fillna. rewrite Forall_map. apply Forall_forall.
  intros [n s] _. cbn [snd fillna_series s_values].
  rewrite Forall_map. apply Forall_forall. intros v _. apply fill_cell_not_na.
Qed.

Lemma no_missing_select_dtypes (include : list dtype) (df : DataFrame) :
  no_missing df -> no_missing (select_dtypes include df).
Proof.
  unfold no_missing, select_dtypes. rewrite !Forall_forall.
  intros H c Hc. apply filter_In in Hc. now apply H.
Qed.

(** C9, as the script behaves.  [fillna(0)] is applied to whole
    frames: it keeps the columns, writes zero (0.0 in a float64 column,
    the integer 0 elsewhere, so also in text columns) over every
    missing cell, never writes "Unknown", and leaves every other cell
    as it was.  After import no cell of the three frames or of their
    numeric projections is a missing-value marker. *)
Theorem fillna_writes_zero_everywhere :
  (forall df : DataFrame, columns (fillna df) = columns df)
  /\ (forall (df : DataFrame) (l : string) (s : Series),
        getitem df l = Ok s ->
        getitem (fillna df) l
        = Ok (mkSeries (s_dtype s)
                (map (fun v => if isna v then zero_of (s_dtype s) else v) (s_values s))))
  /\ (forall (dt : dtype) (v : scalar),
        isna v = true -> fill_cell dt v = zero_of dt /\ fill_cell dt v <> PyStr "Unknown")
  /\ (forall (dt : dtype) (v : scalar), isna v = false -> fill_cell dt v = v)
  /\ (forall csv_vehicle csv_transport csv_bike : DataFrame,
        no_missing (vehicle_registration_df (load csv_vehicle csv_transport csv_bike))
        /\ no_missing (public_transport_df (load csv_vehicle csv_transport csv_bike))
        /\ no_missing (bicycle_network_df (load csv_vehicle csv_transport csv_bike))
        /\ no_missing (vehicle_registration_numeric (load csv_vehicle csv_transport csv_bike))
        /\ no_missing (public_transport_numeric (load csv_vehicle csv_transport csv_bike))
        /\ no_missing (bicycle_network_numeric (load csv_vehicle csv_transport csv_bike))).
Proof.
  split; [exact columns_fillna |].
  split; [intros df l s H; now rewrite getitem_fillna, H |].
  split; [| split].
  - intros dt v H. unfold fill_cell. rewrite H. split; [reflexivity |].
    destruct dt; discriminate.
  - intros dt v H. unfold fill_cell. now rewrite H.
  - intros a b c. cbn [load vehicle_registration_df public_transport_df
      bicycle_network_df vehicle_registration_numeric public_transport_numeric
      bicycle_network_numeric].
    repeat split;
      try apply no_missing_select_dtypes; apply no_missing_fillna.
Qed.

Lemma fillna_writes_zero_everywhere_witness :
  getitem (fillna vehicle_gap) "TOTAL1"
  = Ok (mkSeries float64 [f64 false (5 * 2 ^ 50) (-49); PyFloat (S754_zero false)])
  /\ fill_cell object NaN = PyInt 0
  /\ fill_cell object (PyStr "P") = PyStr "P".
Proof.
  destruct fillna_writes_zero_everywhere as [_ [Hget [Hna Hkeep]]].
  split; [| split].
  - apply (Hget vehicle_gap "TOTAL1" (mkSeries float64 [f64 false (5 * 2 ^ 50) (-49); NaN])).
    reflexivity.
  - apply (Hna object NaN). reflexivity.
  - apply (proj1 Hkeep object (PyStr "P")). reflexivity.
Defined.

(** A missing fuel code becomes the integer 0, not "Unknown". *)
Lemma fillna_does_not_write_unknown :
  getitem (vehicle_registration_df (load vehicle_gap [] [])) "CD_CL_FUEL_ENG"
  = Ok (mkSeries object [PyStr "P"; PyInt 0])
  /\ getitem (vehicle_registration_df (load vehicle_gap [] [])) "CD_CL_FUEL_ENG"
     <> Ok (mkSeries object [PyStr "P"; PyStr "Unknown"]).
Proof. split; [reflexivity | discriminate]. Qed.

(** ** The bicycle map *)

Lemma map_fst_combine {A B} (a : list A) (b : list B) :
  List.length a = List.length b -> map fst (combine a b) = a.
Proof.
  revert b. induction a as [| x a IH]; intros [| y b] H; try discriminate; simpl.
  - reflexivity.
  - injection H as H. now rewrite IH.
Qed.

Lemma map_snd_combine {A B} (a : list A) (b : list B) :
  List.length a = List.length b -> map snd (combine a b) = b.
Proof.
  revert b. induction a as [| x a IH]; intros [| y b] H; try discriminate; simpl.
  - reflexivity.
  - injection H as H. now rewrite IH.
Qed.

Lemma px_column_fillna (df : DataFrame) (l : string) (s : Series) :
  getitem df l = Ok s ->
  px_column (fillna df) l = Ok (map (fill_cell (s_dtype s)) (s_values s)).
Proof. intros H. unfold px_column. now rewrite getitem_fillna, H. Qed.

Lemma is_text_fill_cell (dt : dtype) (v : scalar) :
  is_text (fill_cell dt v) = is_text v.
Proof.
  unfold fill_cell. destruct (isna v) eqn:E; [| reflexivity].
  destruct v as [z | f | s | b |]; try discriminate; now destruct dt.
Qed.

Lemma existsb_is_text_fill (dt : dtype) (vs : list scalar) :
  existsb is_text (map (fill_cell dt) vs) = existsb is_text vs.
Proof.
  induction vs as [| v vs IH]; [reflexivity |].
  cbn [map existsb]. now rewrite is_text_fill_cell, IH.
Qed.

(** C4, as the script behaves.  When the bicycle file has Latitude
    and Longitude columns without text cells and the three hover
    columns, the map view draws every row of the file, none dropped: a
    missing latitude or longitude was replaced by zero at import, so
    the row is drawn with that coordinate at 0. *)
Theorem bike_map_draws_every_row
    (csv_vehicle csv_transport csv_bike : DataFrame) (selected_dataset : string)
    (la lo : Series) :
  rectangular csv_bike ->
  getitem csv_bike "Latitude" = Ok la ->
  getitem csv_bike "Longitude" = Ok lo ->
  existsb is_text (s_values la) = false ->
  existsb is_text (s_values lo) = false ->
  contains "local_name" (columns csv_bike) = true ->
  contains "facility_left" (columns csv_bike) = true ->
  contains "facility_right" (columns csv_bike) = true ->
  exists fig,
    update_bike_infrastructure_map (load csv_vehicle csv_transport csv_bike)
      selected_dataset = Ok fig
    /\ List.length (marks fig) = nrows csv_bike
    /\ map fst (marks fig) = map (fill_cell (s_dtype la)) (s_values la)
    /\ map snd (marks fig) = map (fill_cell (s_dtype lo)) (s_values lo)
    /\ Forall (fun m => isna (fst m) = false /\ isna (snd m) = false) (marks fig).
Proof.
  intros Hrect Hla Hlo Tla Tlo Hname Hleft Hright.
  destruct (getitem_present _ _ Hname) as [sn Hn].
  destruct (getitem_present _ _ Hleft) as [sl Hl].
  destruct (getitem_present _ _ Hright) as [sr Hr].
  pose proof (getitem_length _ _ _ Hrect Hla) as Lla.
  pose proof (getitem_length _ _ _ Hrect Hlo) as Llo.
  unfold update_bike_infrastructure_map. cbn [load bicycle_network_df].
  rewrite columns_fillna, (getitem_contains _ _ _ Hla), (getitem_contains _ _ _ Hlo).
  cbn [negb orb]. unfold px_scatter_mapbox, mapbox_centre, mean. cbn [mapM].
  rewrite (px_column_fillna _ _ _ Hla), (px_column_fillna _ _ _ Hlo),
    (px_column_fillna _ _ _ Hn), (px_column_fillna _ _ _ Hl), (px_column_fillna _ _ _ Hr).
  rewrite !getitem_fillna, Hla, Hlo. cbn [bind fillna_series s_values].
  rewrite !existsb_is_text_fill, Tla, Tlo. cbn [bind].
  eexists. split; [reflexivity |].
  unfold marks. cbn [data update_mapbox].
  assert (Hlen : List.length (map (fill_cell (s_dtype la)) (s_values la))
                 = List.length (map (fill_cell (s_dtype lo)) (s_values lo)))
    by (rewrite !length_map; congruence).
  split; [| split; [| split]].
  - rewrite length_combine, <- Hlen, Nat.min_id, length_map. exact Lla.
  - now apply map_fst_combine.
  - now apply map_snd_combine.
  - apply Forall_forall. intros [a b] Hin. cbn [fst snd].
    pose proof (in_combine_l _ _ _ _ Hin) as Ha.
    pose proof (in_combine_r _ _ _ _ Hin) as Hb.
    apply in_map_iff in Ha. destruct Ha as [a' [<- _]].
    apply in_map_iff in Hb. destruct Hb as [b' [<- _]].
    split; apply fill_cell_not_na.
Qed.

Lemma rectangular_bike_rows : rectangular bike_rows.
Proof. repeat constructor. Qed.

Lemma bike_map_draws_every_row_witness :
  exists fig,
    update_bike_infrastructure_map (load vehicle_rows transport_rows bike_rows) "bike"
    = Ok fig
    /\ List.length (marks fig) = 2
    /\ map fst (marks fig)
       = [PyFloat (S754_zero false); f64 true (151 * 2 ^ 45) (-47)].
Proof.
  destruct (bike_map_draws_every_row vehicle_rows transport_rows bike_rows "bike"
              (mkSeries float64 [NaN; f64 true (151 * 2 ^ 45) (-47)])
              (mkSeries float64
                 [f64 false (289 * 2 ^ 44) (-45); f64 false (145 * 2 ^ 45) (-45)])
              rectangular_bike_rows eq_refl eq_refl eq_refl eq_refl
              eq_refl eq_refl eq_refl)
    as [fig [Hfig [Hlen [Hfst _]]]].
  exists fig. split; [exact Hfig |]. split; [exact Hlen | exact Hfst].
Defined.

(** The row without a latitude is on the map, at latitude 0; and with
    the Longitude column taken out of the file the view raises
    instead of answering with a "no data" figure. *)
Lemma bike_map_keeps_row_without_latitude :
  nth 0 (rows bike_rows) [] =
    [("Latitude", NaN); ("Longitude", f64 false (289 * 2 ^ 44) (-45));
     ("local_name", PyStr "Yarra Trail"); ("facility_left", PyStr "Path");
     ("facility_right", PyStr "Path"); ("bearing", PyInt 90)]
  /\ (exists fig,
       update_bike_infrastructure_map (load vehicle_rows transport_rows bike_rows) "bike"
       = Ok fig
       /\ marks fig =
          [(PyFloat (S754_zero false), f64 false (289 * 2 ^ 44) (-45));
           (f64 true (151 * 2 ^ 45) (-47), f64 false (145 * 2 ^ 45) (-45))])
  /\ update_bike_infrastructure_map
       (load vehicle_rows transport_rows (drop "Longitude" bike_rows)) "bike"
     = Raise KeyError_None.
Proof.
  split; [reflexivity |]. split; [| reflexivity].
  eexists. split; [vm_compute; reflexivity | reflexivity].
Qed.

(** ** The column picker and the correlation heatmap *)

Lemma update_columns_options_values (g : Globals) (selected_dataset : string) :
  map value (update_columns_options g selected_dataset)
  = columns (selected_numeric g selected_dataset).
Proof.
  unfold update_columns_options, selected_numeric.
  destruct (String.eqb selected_dataset "vehicle");
    [| destruct (String.eqb selected_dataset "transport")];
    rewrite map_map; cbn [value]; apply map_id.
Qed.

Lemma effective_columns_all (df : DataFrame) :
  effective_columns df None = columns df
  /\ effective_columns df (Some []) = columns df
  /\ effective_columns df (Some (columns df)) = columns df.
Proof.
  unfold effective_columns. cbn [falsy].
  repeat split. now destruct (columns df).
Qed.

(** C5.  For every dataset key and colour scale, the heatmap view
    gives the same result (figure or exception) for no selection
    ([None]), for the empty selection, and for the selection of all the
    columns the column picker offers for that dataset. *)
Theorem heatmap_no_selection_is_full_selection
    (g : Globals) (selected_dataset : string) (selected_color_scale : color_scale) :
  update_correlation_heatmap g selected_dataset None selected_color_scale
  = update_correlation_heatmap g selected_dataset
      (Some (map value (update_columns_options g selected_dataset))) selected_color_scale
  /\ update_correlation_heatmap g selected_dataset (Some []) selected_color_scale
     = update_correlation_heatmap g selected_dataset
         (Some (map value (update_columns_options g selected_dataset)))
         selected_color_scale.
Proof.
  rewrite update_columns_options_values.
  unfold update_correlation_heatmap.
  destruct (effective_columns_all (selected_numeric g selected_dataset))
    as [-> [-> ->]].
  split; reflexivity.
Qed.



Lemma getitem_list_present (df : DataFrame) (labels : list string) :
  Forall (fun c => contains c (columns df) = true) labels ->
  exists sub,
    getitem_list df labels = Ok sub
    /\ columns sub = labels
    /\ Forall (fun c => getitem df (fst c) = Ok (snd c)) sub.
Proof.
  unfold getitem_list.
  induction labels as [| l labels IH]; intros H.
  - exists []. repeat split. constructor.
  - inversion H as [| ? ? Hl Hrest]; subst.
    destruct (getitem_present _ _ Hl) as [s Hs].
    destruct (IH Hrest) as [sub [Hsub [Hcols Hall]]].
    exists ((l, s) :: sub). cbn [mapM]. rewrite Hs. cbn [bind]. rewrite Hsub. cbn [bind].
    split; [reflexivity |]. split.
    + change (l :: columns sub = l :: labels). now rewrite Hcols.
    + constructor; assumption.
Qed.




(** * Further properties of the script *)

(** ** Cleaning and the numeric projections (lines 16-24) *)

Lemma fill_cell_present (dt : dtype) (v : scalar) : isna v = false -> fill_cell dt v = v.
Proof. intros H. unfold fill_cell. now rewrite H. Qed.

Lemma fillna_series_clean (s : Series) :
  Forall (fun v => isna v = false) (s_values s) -> fillna_series s = s.
Proof.
  destruct s as [dt vs]. unfold fillna_series. cbn [s_dtype s_values].
  intros H. f_equal.
  induction H as [| v vs Hv _ IH]; cbn [map]; [reflexivity |].
  now rewrite IH, (fill_cell_present _ _ Hv).
Qed.

Lemma fillna_clean (df : DataFrame) : no_missing df -> fillna df = df.
Proof.
  unfold no_missing, fillna.
  induction 1 as [| [n s] df Hs _ IH]; cbn [map fst snd]; [reflexivity |].
  cbn [snd] in Hs. now rewrite IH, (fillna_series_clean _ Hs).
Qed.

(** X1.  [fillna(0)] changes nothing in a frame without missing
    cells, so cleaning twice is the same as cleaning once. *)
Theorem fillna_is_idempotent (df : DataFrame) :
  (no_missing df -> fillna df = df)
  /\ fillna (fillna df) = fillna df.
Proof.
  split.
  - apply fillna_clean.
  - apply fillna_clean, no_missing_fillna.
Qed.

Lemma fillna_is_idempotent_witness : fillna vehicle_rows = vehicle_rows.
Proof.
  apply (proj1 (fillna_is_idempotent vehicle_rows)).
  repeat constructor.
Defined.

Lemma select_dtypes_fillna (include : list dtype) (df : DataFrame) :
  select_dtypes include (fillna df) = fillna (select_dtypes include df).
Proof.
  unfold select_dtypes, fillna.
  induction df as [| [n s] df IH]; cbn [map filter fst snd fillna_series s_dtype];
    [reflexivity |].
  destruct (existsb (dtype_eqb (s_dtype s)) include); cbn [map fst snd]; now rewrite IH.
Qed.

(** X2.  Cleaning keeps the shape of a file: the same columns with
    the same dtypes and the same number of rows.  Selecting the numeric
    columns after cleaning gives the cleaned numeric columns of the
    file, so each numeric projection the script keeps is the cleaned
    [float64]/[int64] part of its file. *)
Theorem load_keeps_shape (csv_vehicle csv_transport csv_bike : DataFrame) :
  (forall df : DataFrame,
     columns (fillna df) = columns df
     /\ map (fun c => s_dtype (snd c)) (fillna df) = map (fun c => s_dtype (snd c)) df
     /\ nrows (fillna df) = nrows df)
  /\ vehicle_registration_numeric (load csv_vehicle csv_transport csv_bike)
     = fillna (select_dtypes [float64; int64] csv_vehicle)
  /\ public_transport_numeric (load csv_vehicle csv_transport csv_bike)
     = fillna (select_dtypes [float64; int64] csv_transport)
  /\ bicycle_network_numeric (load csv_vehicle csv_transport csv_bike)
     = fillna (select_dtypes [float64; int64] csv_bike).
Proof.
  split.
  - intros df. split; [apply columns_fillna |]. split; [| apply nrows_fillna].
    unfold fillna. rewrite map_map. reflexivity.
  - cbn [load vehicle_registration_numeric public_transport_numeric
           bicycle_network_numeric].
    now rewrite !select_dtypes_fillna.
Qed.

Lemma existsb_dtype_numeric (dt : dtype) :
  existsb (dtype_eqb dt) [float64; int64] = is_numeric dt.
Proof. now destruct dt. Qed.

Lemma getitem_select_dtypes (df : DataFrame) (l : string) (s : Series) :
  NoDup (columns df) ->
  (getitem (select_dtypes [float64; int64] df) l = Ok s
   <-> getitem df l = Ok s /\ is_numeric (s_dtype s) = true).
Proof.
  unfold select_dtypes.
  induction df as [| [n c] df IH]; intros Hnd.
  - cbn. split; [discriminate | intros [H _]; discriminate].
  - cbn [columns map fst] in Hnd. inversion Hnd as [| ? ? Hn Hnd']; subst.
    cbn [filter snd getitem]. rewrite existsb_dtype_numeric.
    destruct (String.eqb n l) eqn:E.
    + apply String.eqb_eq in E. subst l.
      destruct (is_numeric (s_dtype c)) eqn:Hc.
      * cbn [getitem]. rewrite String.eqb_refl.
        split; [intros H; injection H as <-; now split | now intros [H _]].
      * split.
        -- intros H. apply (proj1 (IH Hnd')) in H. destruct H as [H _].
           apply getitem_contains, contains_In in H. contradiction.
        -- intros [H Hs]. injection H as <-. congruence.
    + destruct (is_numeric (s_dtype c)).
      * cbn [getitem]. rewrite E. now apply IH.
      * now apply IH.
Qed.

Lemma selected_numeric_load
    (csv_vehicle csv_transport csv_bike : DataFrame) (selected_dataset : string) :
  selected_numeric (load csv_vehicle csv_transport csv_bike) selected_dataset
  = select_dtypes [float64; int64]
      (fillna (selected_csv csv_vehicle csv_transport csv_bike selected_dataset)).
Proof.
  unfold selected_numeric, selected_csv.
  destruct (String.eqb selected_dataset "vehicle");
    [| destruct (String.eqb selected_dataset "transport")]; reflexivity.
Qed.

(** X3.  With distinct column names in the chosen file, a label is a
    column of the numeric projection the heatmap works on exactly when
    it is a column of the cleaned file whose dtype is [int64] or
    [float64], and then both hold the same column: text and boolean
    columns are never part of a projection. *)
Theorem numeric_projection_lookup
    (csv_vehicle csv_transport csv_bike : DataFrame) (selected_dataset : string)
    (l : string) (s : Series) :
  NoDup (columns (selected_csv csv_vehicle csv_transport csv_bike selected_dataset)) ->
  (getitem (selected_numeric (load csv_vehicle csv_transport csv_bike) selected_dataset) l
   = Ok s
   <-> getitem (fillna (selected_csv csv_vehicle csv_transport csv_bike selected_dataset)) l
       = Ok s
       /\ (s_dtype s = int64 \/ s_dtype s = float64)).
Proof.
  intros Hnd. rewrite selected_numeric_load.
  rewrite getitem_select_dtypes by (now rewrite columns_fillna).
  split; intros [H Hs]; (split; [exact H |]).
  - destruct (s_dtype s); try discriminate; auto.
  - destruct Hs as [-> | ->]; reflexivity.
Qed.

Lemma numeric_projection_lookup_witness :
  getitem (selected_numeric (load vehicle_rows transport_rows bike_rows) "vehicle") "TOTAL1"
  = Ok (mkSeries int64 [PyInt 10; PyInt 5; PyInt 7]).
Proof.
  apply (numeric_projection_lookup vehicle_rows transport_rows bike_rows "vehicle").
  - repeat constructor; cbn; intuition discriminate.
  - split; [reflexivity | now left].
Defined.

Lemma fill_cell_typed (dt : dtype) (v : scalar) :
  cell_of_dtype dt v = true -> cell_of_dtype dt (fill_cell dt v) = true.
Proof.
  unfold fill_cell. destruct (isna v) eqn:E; [| trivial].
  intros H. destruct dt; try reflexivity.
  destruct v; discriminate.
Qed.

(** X4.  Cleaning respects the dtypes: in a frame whose cells fit
    their column's dtype, they still do after [fillna(0)] (a [float64]
    column gets the float 0.0, not the integer), and [int64] and
    [bool] columns, which cannot hold a missing value, come out
    unchanged. *)
Theorem fillna_respects_dtypes (df : DataFrame) :
  well_typed df ->
  well_typed (fillna df)
  /\ (forall (l : string) (s : Series),
        getitem df l = Ok s -> s_dtype s = int64 \/ s_dtype s = bool_ ->
        getitem (fillna df) l = Ok s).
Proof.
  intros Hwt. split.
  - unfold well_typed, fillna in *. rewrite Forall_map.
    apply (Forall_impl _ (P := fun c => Forall (fun v => cell_of_dtype (s_dtype (snd c)) v = true)
                                       (s_values (snd c)))); [| exact Hwt].
    intros [n s] H. cbn [snd fillna_series s_dtype s_values] in *.
    rewrite Forall_map. apply (Forall_impl _ (P := fun v => cell_of_dtype (s_dtype s) v = true));
      [apply fill_cell_typed | exact H].
  - intros l s Hget Hdt. rewrite getitem_fillna, Hget. f_equal.
    apply fillna_series_clean.
    apply getitem_In in Hget. unfold well_typed in Hwt. rewrite Forall_forall in Hwt.
    specialize (Hwt _ Hget). cbn [snd] in Hwt.
    apply (Forall_impl _ (P := fun v => cell_of_dtype (s_dtype s) v = true)); [| exact Hwt].
    intros v Hv. destruct Hdt as [Hd | Hd]; rewrite Hd in Hv; now destruct v.
Qed.

Lemma fillna_respects_dtypes_witness :
  well_typed (fillna vehicle_gap)
  /\ getitem (fillna vehicle_gap) "POSTCODE" = Ok (mkSeries int64 [PyInt 3000; PyInt 3001]).
Proof.
  assert (Hwt : well_typed vehicle_gap) by (repeat constructor).
  split.
  - apply (proj1 (fillna_respects_dtypes vehicle_gap Hwt)).
  - apply (proj2 (fillna_respects_dtypes vehicle_gap Hwt)); [reflexivity | now left].
Defined.

(** ** Boolean-mask indexing (line 149) *)

Lemma length_take_mask {A B} (m : list bool) (a : list A) (b : list B) :
  List.length a = List.length b ->
  List.length (take_mask m a) = List.length (take_mask m b).
Proof.
  revert a b. induction m as [| x m IH]; intros [| u a] [| v b] H;
    try discriminate; try reflexivity.
  injection H as H. cbn [take_mask]. destruct x; cbn [List.length]; auto.
Qed.

Lemma rectangular_getitem_mask (df : DataFrame) (m : list bool) :
  rectangular df -> rectangular (getitem_mask df m).
Proof.
  unfold rectangular. destruct df as [| c0 df]; [constructor |].
  intros H. cbn [getitem_mask map nrows snd s_values].
  rewrite Forall_forall in H.
  constructor; [reflexivity |].
  rewrite Forall_map. apply Forall_forall. intros c Hc. cbn [snd s_values].
  apply length_take_mask.
  rewrite (H c (or_intror Hc)). cbn [nrows]. reflexivity.
Qed.

Lemma rows_step (df : DataFrame) (k : nat) :
  nrows df = S k -> rectangular df ->
  rows df = row_at df 0 :: rows (tail_rows df)
  /\ nrows (tail_rows df) = k
  /\ rectangular (tail_rows df).
Proof.
  intros Hn Hrect.
  assert (Hk : nrows (tail_rows df) = k).
  { destruct df as [| c df]; [discriminate |]. cbn [nrows tail_rows map snd s_values] in *.
    destruct (s_values (snd c)); [discriminate | cbn in *; congruence]. }
  split; [| split; [exact Hk |]].
  - unfold rows. rewrite Hn, Hk. cbn [seq map]. f_equal.
    rewrite <- seq_shift, map_map. apply map_ext. intros i.
    unfold row_at, tail_rows. rewrite map_map. apply map_ext. intros c.
    cbn [fst snd s_values]. now destruct (s_values (snd c)); destruct i.
  - unfold rectangular in *. rewrite Hk. unfold tail_rows. rewrite Forall_map.
    apply (Forall_impl _ (P := fun c => List.length (s_values (snd c)) = nrows df));
      [| exact Hrect].
    intros c Hc. cbn [snd s_values]. rewrite Hn in Hc.
    destruct (s_values (snd c)); [discriminate | cbn in *; congruence].
Qed.

Lemma getitem_mask_skip (df : DataFrame) (m : list bool) (k : nat) :
  nrows df = S k -> rectangular df ->
  getitem_mask df (false :: m) = getitem_mask (tail_rows df) m.
Proof.
  intros Hn Hrect. unfold getitem_mask, tail_rows. rewrite map_map.
  unfold rectangular in Hrect. rewrite Forall_forall in Hrect.
  apply map_ext_in. intros c Hc. cbn [fst snd s_dtype s_values].
  specialize (Hrect c Hc). rewrite Hn in Hrect.
  destruct (s_values (snd c)); [discriminate | reflexivity].
Qed.

Lemma getitem_mask_keep (df : DataFrame) (m : list bool) (k : nat) :
  nrows df = S k -> rectangular df ->
  rows (getitem_mask df (true :: m))
  = row_at df 0 :: rows (getitem_mask (tail_rows df) m).
Proof.
  intros Hn Hrect.
  assert (Hcols : forall c, In c df -> exists x l, s_values (snd c) = x :: l).
  { unfold rectangular in Hrect. rewrite Forall_forall in Hrect.
    intros c Hc. specialize (Hrect c Hc). rewrite Hn in Hrect.
    destruct (s_values (snd c)); [discriminate | eauto]. }
  assert (Hn' : exists j, nrows (getitem_mask df (true :: m)) = S j).
  { destruct df as [| c df]; [discriminate |].
    destruct (Hcols c (or_introl eq_refl)) as [x [l Hx]].
    cbn [getitem_mask map nrows snd s_values]. rewrite Hx. cbn. eauto. }
  destruct Hn' as [j Hj].
  destruct (rows_step _ j Hj (rectangular_getitem_mask df (true :: m) Hrect))
    as [-> _].
  f_equal.
  - unfold row_at, getitem_mask. rewrite map_map.
    apply map_ext_in. intros c Hc. cbn [fst snd s_values].
    destruct (Hcols c Hc) as [x [l ->]]. reflexivity.
  - f_equal. unfold tail_rows, getitem_mask. rewrite !map_map.
    apply map_ext_in. intros c Hc. cbn [fst snd s_dtype s_values].
    destruct (Hcols c Hc) as [x [l ->]]. reflexivity.
Qed.

Lemma rows_getitem_mask (m : list bool) :
  forall df : DataFrame,
    rectangular df -> List.length m = nrows df ->
    rows (getitem_mask df m) = take_mask m (rows df).
Proof.
  induction m as [| b m IH]; intros df Hrect Hlen.
  - cbn [take_mask]. unfold rows.
    replace (nrows (getitem_mask df [])) with 0; [reflexivity |].
    destruct df as [| c df]; reflexivity.
  - cbn [List.length] in Hlen. symmetry in Hlen.
    destruct (rows_step df _ Hlen Hrect) as [Hrows [Hk Hrect']].
    rewrite Hrows. cbn [take_mask].
    destruct b.
    + rewrite (getitem_mask_keep df m _ Hlen Hrect). f_equal.
      apply IH; [exact Hrect' | now rewrite Hk].
    + rewrite (getitem_mask_skip df m _ Hlen Hrect).
      apply IH; [exact Hrect' | now rewrite Hk].
Qed.

(** X5.  Indexing a frame with a boolean mask of its height keeps the
    columns and their dtypes and keeps exactly the rows at which the
    mask is true, whole and in their order; all columns of the result
    have the same height again. *)
Theorem mask_indexing_keeps_true_rows (df : DataFrame) (mask : list bool) :
  rectangular df -> List.length mask = nrows df ->
  rows (getitem_mask df mask) = take_mask mask (rows df)
  /\ columns (getitem_mask df mask) = columns df
  /\ map (fun c => s_dtype (snd c)) (getitem_mask df mask)
     = map (fun c => s_dtype (snd c)) df
  /\ rectangular (getitem_mask df mask).
Proof.
  intros Hrect Hlen.
  split; [now apply rows_getitem_mask |].
  split; [apply columns_getitem_mask |].
  split; [| now apply rectangular_getitem_mask].
  unfold getitem_mask. rewrite map_map. reflexivity.
Qed.

Lemma mask_indexing_keeps_true_rows_witness :
  rows (getitem_mask vehicle_rows [true; false; true])
  = take_mask [true; false; true] (rows vehicle_rows).
Proof.
  apply (mask_indexing_keeps_true_rows vehicle_rows [true; false; true]).
  - exact rectangular_vehicle_rows.
  - reflexivity.
Defined.

(** ** Outcomes of the three data views *)

Lemma px_column_present (df : DataFrame) (c : string) :
  contains c (columns df) = true ->
  exists s, getitem df c = Ok s /\ px_column df c = Ok (s_values s).
Proof.
  intros H. destruct (getitem_present _ _ H) as [s Hs].
  exists s. split; [exact Hs |]. unfold px_column. now rewrite Hs.
Qed.

Lemma px_column_absent (df : DataFrame) (c : string) :
  contains c (columns df) = false -> px_column df c = Raise (ValueError c).
Proof. intros H. unfold px_column. now rewrite (getitem_absent _ _ H). Qed.

Lemma transport_view_chart (g : Globals) (selected_dataset : string) :
  contains "Fin_year" (columns (public_transport_df g)) = true ->
  contains "Pax_annual" (columns (public_transport_df g)) = true ->
  exists sx sy,
    getitem (public_transport_df g) "Fin_year" = Ok sx
    /\ getitem (public_transport_df g) "Pax_annual" = Ok sy
    /\ update_public_transport_graph g selected_dataset
       = Ok (mkFigure (Scatter (s_values sx) (s_values sy))
               (mkLayout (Some "Public Transport Usage Over Time") (Some "Year")
                  (Some "Passenger Count") None None None None None None)).
Proof.
  intros Hx Hy.
  destruct (px_column_present _ _ Hx) as [sx [Hgx Hpx]].
  destruct (px_column_present _ _ Hy) as [sy [Hgy Hpy]].
  exists sx, sy. split; [exact Hgx |]. split; [exact Hgy |].
  unfold update_public_transport_graph, px_line.
  rewrite Hx, Hy, Hpx, Hpy. reflexivity.
Qed.

(** X6.  The time-series view never raises: for every state of the
    globals it returns a figure, and that figure is the "no data"
    placeholder exactly when Fin_year or Pax_annual is not a column of
    the station frame. *)
Theorem transport_view_always_returns (g : Globals) (selected_dataset : string) :
  exists fig,
    update_public_transport_graph g selected_dataset = Ok fig
    /\ (is_no_data fig = true
        <-> contains "Fin_year" (columns (public_transport_df g)) = false
            \/ contains "Pax_annual" (columns (public_transport_df g)) = false).
Proof.
  destruct (contains "Fin_year" (columns (public_transport_df g))) eqn:Hx;
    [destruct (contains "Pax_annual" (columns (public_transport_df g))) eqn:Hy |].
  - destruct (transport_view_chart g selected_dataset Hx Hy) as [sx [sy [_ [_ H]]]].
    eexists. split; [exact H |].
    unfold is_no_data. cbn [layout title]. rewrite andb_false_r.
    split; [discriminate | intros [H' | H']; discriminate].
  - eexists. split; [apply transport_view_placeholder; now right |].
    split; [now right | reflexivity].
  - eexists. split; [apply transport_view_placeholder; now left |].
    split; [now left | reflexivity].
Qed.

(** X7.  With both columns present the time-series view draws one
    point per row of the station frame, in the frame's row order (it
    does not sort by year): the point of a row is its (Fin_year,
    Pax_annual) pair.  The figure is titled "Public Transport Usage
    Over Time" with axes "Year" and "Passenger Count". *)
Theorem transport_view_points_in_row_order (g : Globals) (selected_dataset : string) :
  rectangular (public_transport_df g) ->
  contains "Fin_year" (columns (public_transport_df g)) = true ->
  contains "Pax_annual" (columns (public_transport_df g)) = true ->
  exists fig,
    update_public_transport_graph g selected_dataset = Ok fig
    /\ marks fig
       = map (fun r => (field r "Fin_year", field r "Pax_annual"))
           (rows (public_transport_df g))
    /\ title (layout fig) = Some "Public Transport Usage Over Time"
    /\ xaxis_title (layout fig) = Some "Year"
    /\ yaxis_title (layout fig) = Some "Passenger Count".
Proof.
  intros Hrect Hx Hy.
  destruct (transport_view_chart g selected_dataset Hx Hy) as [sx [sy [Hgx [Hgy H]]]].
  eexists. split; [exact H |]. split; [| repeat split].
  unfold marks. cbn [data]. exact (pairs_rows _ _ _ _ _ Hrect Hgx Hgy).
Qed.

Lemma transport_view_points_in_row_order_witness :
  exists fig,
    update_public_transport_graph (load vehicle_rows transport_rows bike_rows) "bike"
    = Ok fig
    /\ marks fig
       = [(PyStr "FY22-23", PyInt 3500000); (PyStr "FY23-24", PyInt 3900000)].
Proof.
  destruct (transport_view_points_in_row_order
              (load vehicle_rows transport_rows bike_rows) "bike")
    as [fig [Hfig [Hm _]]].
  - repeat constructor.
  - reflexivity.
  - reflexivity.
  - exists fig. split; [exact Hfig | exact Hm].
Defined.

Lemma vehicle_view_returns (g : Globals) (selected_vehicle_type : string) :
  selected_vehicle_type = "All"
  \/ contains "CD_CL_FUEL_ENG" (columns (vehicle_registration_df g)) = true ->
  contains "POSTCODE" (columns (vehicle_registration_df g)) = true ->
  contains "TOTAL1" (columns (vehicle_registration_df g)) = true ->
  exists fig,
    update_vehicle_registrations_graph g selected_vehicle_type = Ok fig
    /\ title (layout fig) = Some ("Vehicle Registrations for " ++ selected_vehicle_type)
    /\ plot_bgcolor (layout fig) = Some "#F9F9F9".
Proof.
  intros Hfuel Hp Ht. unfold update_vehicle_registrations_graph.
  destruct (String.eqb selected_vehicle_type "All") eqn:E.
  - cbn [bind]. rewrite Hp, Ht. cbn [negb orb]. unfold px_bar.
    destruct (px_column_present _ _ Hp) as [sx [_ ->]].
    destruct (px_column_present _ _ Ht) as [sy [_ ->]].
    cbn [bind]. eexists. split; [reflexivity |]. split; reflexivity.
  - destruct Hfuel as [-> | Hfuel]; [discriminate |].
    destruct (getitem_present _ _ Hfuel) as [sf ->]. cbn [bind].
    rewrite columns_getitem_mask, Hp, Ht. cbn [negb orb]. unfold px_bar.
    rewrite <- (columns_getitem_mask _ (eq_str sf selected_vehicle_type)) in Hp, Ht.
    destruct (px_column_present _ _ Hp) as [sx [_ ->]].
    destruct (px_column_present _ _ Ht) as [sy [_ ->]].
    cbn [bind]. eexists. split; [reflexivity |]. split; reflexivity.
Qed.

(** X8.  The only exception the vehicle view can raise is the
    KeyError for CD_CL_FUEL_ENG, and it raises it exactly when a type
    other than "All" is selected while the vehicle frame has no such
    column; in every other state it returns a figure. *)
Theorem vehicle_view_raises_only_for_fuel_column
    (g : Globals) (selected_vehicle_type : string) (e : exn) :
  update_vehicle_registrations_graph g selected_vehicle_type = Raise e
  <-> selected_vehicle_type <> "All"
      /\ contains "CD_CL_FUEL_ENG" (columns (vehicle_registration_df g)) = false
      /\ e = KeyError "CD_CL_FUEL_ENG".
Proof.
  split.
  - intros H.
    assert (Hcase : selected_vehicle_type = "All"
                    \/ contains "CD_CL_FUEL_ENG" (columns (vehicle_registration_df g)) = true
                    \/ (selected_vehicle_type <> "All"
                        /\ contains "CD_CL_FUEL_ENG"
                             (columns (vehicle_registration_df g)) = false)).
    { destruct (String.eqb selected_vehicle_type "All") eqn:E.
      - left. now apply String.eqb_eq.
      - apply String.eqb_neq in E.
        destruct (contains "CD_CL_FUEL_ENG" (columns (vehicle_registration_df g)));
          auto. }
    assert (Hok : selected_vehicle_type = "All"
                  \/ contains "CD_CL_FUEL_ENG" (columns (vehicle_registration_df g)) = true ->
                  False).
    { intros Hfuel.
      destruct (contains "POSTCODE" (columns (vehicle_registration_df g))) eqn:Hp;
        [destruct (contains "TOTAL1" (columns (vehicle_registration_df g))) eqn:Ht |].
      - destruct (vehicle_view_returns g _ Hfuel Hp Ht) as [fig [Hfig _]]. congruence.
      - rewrite (vehicle_view_placeholder g _ Hfuel (or_intror Ht)) in H. discriminate.
      - rewrite (vehicle_view_placeholder g _ Hfuel (or_introl Hp)) in H. discriminate. }
    destruct Hcase as [Ha | [Hf | [Hne Habs]]]; [exfalso; auto | exfalso; auto |].
    rewrite (vehicle_view_without_fuel_column g _ Hne Habs) in H.
    injection H as <-. auto.
  - intros [Hne [Habs ->]]. now apply vehicle_view_without_fuel_column.
Qed.

Lemma vehicle_view_raises_only_for_fuel_column_witness :
  update_vehicle_registrations_graph
    (load (drop "CD_CL_FUEL_ENG" vehicle_rows) transport_rows bike_rows) "P"
  = Raise (KeyError "CD_CL_FUEL_ENG").
Proof.
  apply (vehicle_view_raises_only_for_fuel_column
           (load (drop "CD_CL_FUEL_ENG" vehicle_rows) transport_rows bike_rows) "P").
  split; [discriminate |]. split; reflexivity.
Defined.

(** X9.  The vehicle view returns its "Vehicle Registration Data
    Missing or Incorrect" placeholder exactly when POSTCODE or TOTAL1
    is not a column of the vehicle frame and the filter step did not
    raise (the filter is "All" or the fuel column exists). *)
Theorem vehicle_view_placeholder_exactly
    (g : Globals) (selected_vehicle_type : string) :
  update_vehicle_registrations_graph g selected_vehicle_type
  = Ok (px_bar_blank "Vehicle Registration Data Missing or Incorrect")
  <-> (selected_vehicle_type = "All"
       \/ contains "CD_CL_FUEL_ENG" (columns (vehicle_registration_df g)) = true)
      /\ (contains "POSTCODE" (columns (vehicle_registration_df g)) = false
          \/ contains "TOTAL1" (columns (vehicle_registration_df g)) = false).
Proof.
  split.
  - intros H.
    assert (Hfuel : selected_vehicle_type = "All"
                    \/ contains "CD_CL_FUEL_ENG" (columns (vehicle_registration_df g)) = true).
    { destruct (String.eqb selected_vehicle_type "All") eqn:E.
      - left. now apply String.eqb_eq.
      - apply String.eqb_neq in E.
        destruct (contains "CD_CL_FUEL_ENG" (columns (vehicle_registration_df g))) eqn:Hf;
          [now right |].
        rewrite (vehicle_view_without_fuel_column g _ E Hf) in H. discriminate. }
    split; [exact Hfuel |].
    destruct (contains "POSTCODE" (columns (vehicle_registration_df g))) eqn:Hp;
      [| now left].
    destruct (contains "TOTAL1" (columns (vehicle_registration_df g))) eqn:Ht;
      [| now right].
    destruct (vehicle_view_returns g _ Hfuel Hp Ht) as [fig [Hfig [_ Hbg]]].
    rewrite H in Hfig. injection Hfig as <-. discriminate Hbg.
  - intros [Hfuel Hmiss]. now apply vehicle_view_placeholder.
Qed.

Lemma vehicle_view_placeholder_exactly_witness :
  update_vehicle_registrations_graph
    (load (drop "POSTCODE" vehicle_rows) transport_rows bike_rows) "D"
  = Ok (px_bar_blank "Vehicle Registration Data Missing or Incorrect").
Proof.
  apply (vehicle_view_placeholder_exactly
           (load (drop "POSTCODE" vehicle_rows) transport_rows bike_rows) "D").
  split; [right; reflexivity | left; reflexivity].
Defined.

Lemma transport_view_always_returns_witness :
  exists fig,
    update_public_transport_graph (load vehicle_rows [] bike_rows) "transport" = Ok fig
    /\ is_no_data fig = true.
Proof.
  destruct (transport_view_always_returns (load vehicle_rows [] bike_rows) "transport")
    as [fig [Hfig Hiff]].
  exists fig. split; [exact Hfig |]. apply Hiff. left. reflexivity.
Defined.

Lemma option_add_assoc (a b c : option Z) :
  option_add a (option_add b c) = option_add (option_add a b) c.
Proof. destruct a, b, c; cbn; try reflexivity. f_equal. lia. Qed.

Lemma option_add_swap (a b c : option Z) :
  option_add a (option_add b c) = option_add b (option_add a c).
Proof. destruct a, b, c; cbn; try reflexivity. f_equal. lia. Qed.

Lemma option_add_none_r (a : option Z) : option_add a None = None.
Proof. now destruct a. Qed.

Lemma int_sum_split {A} (f : A -> scalar) (p : A -> bool) (l : list A) :
  int_sum (map f l)
  = option_add (int_sum (map f (filter p l)))
      (int_sum (map f (filter (fun a => negb (p a)) l))).
Proof.
  induction l as [| a l IH]; [reflexivity |].
  cbn [map filter].
  destruct (p a); cbn [negb map int_sum]; destruct (f a);
    rewrite ?option_add_none_r; try reflexivity; rewrite IH.
  - apply option_add_assoc.
  - apply option_add_swap.
Qed.

Lemma filter_filter_comm {A} (p q : A -> bool) (l : list A) :
  filter p (filter q l) = filter q (filter p l).
Proof.
  induction l as [| a l IH]; [reflexivity |].
  cbn [filter]. destruct (p a) eqn:Hp, (q a) eqn:Hq; cbn [filter];
    rewrite ?Hp, ?Hq, IH; reflexivity.
Qed.

Lemma Permutation_filter_split {A} (p : A -> bool) (l : list A) :
  Permutation l (filter p l ++ filter (fun a => negb (p a)) l).
Proof.
  induction l as [| a l IH]; [constructor |].
  cbn [filter]. destruct (p a); cbn [negb app].
  - now constructor.
  - now apply Permutation_cons_app.
Qed.

(** X10.  Against the "All" figure, the figure of a single type shows
    a part of the same rectangles: every rectangle drawn for the type
    is drawn for "All", there are no more of them, and the rectangles
    of "All" are, up to order, those of the type together with those
    of the rows that carry another fuel code.  For integer totals the
    "All" stack at a postcode is as high as the type's stack plus the
    totals of that postcode's rows with another fuel code. *)
Theorem vehicle_view_type_within_all (g : Globals) (v : string) :
  rectangular (vehicle_registration_df g) ->
  contains "POSTCODE" (columns (vehicle_registration_df g)) = true ->
  contains "TOTAL1" (columns (vehicle_registration_df g)) = true ->
  contains "CD_CL_FUEL_ENG" (columns (vehicle_registration_df g)) = true ->
  v <> "All" ->
  exists fig_all fig_v,
    update_vehicle_registrations_graph g "All" = Ok fig_all
    /\ update_vehicle_registrations_graph g v = Ok fig_v
    /\ incl (marks fig_v) (marks fig_all)
    /\ List.length (marks fig_v) <= List.length (marks fig_all)
    /\ Permutation (marks fig_all)
         (marks fig_v
          ++ map (fun r => (field r "POSTCODE", field r "TOTAL1"))
               (filter (fun r => negb (cell_eq_str v (field r "CD_CL_FUEL_ENG")))
                  (rows (vehicle_registration_df g))))
    /\ (forall postcode : scalar,
          stacked_height (marks fig_all) postcode
          = option_add (stacked_height (marks fig_v) postcode)
              (int_sum (map (fun r => field r "TOTAL1")
                 (filter (fun r => negb (cell_eq_str v (field r "CD_CL_FUEL_ENG")))
                    (filter (fun r => if scalar_eq_dec (field r "POSTCODE") postcode
                                      then true else false)
                       (rows (vehicle_registration_df g))))))).
Proof.
  intros Hrect Hp Ht Hf Hne.
  destruct (vehicle_view_marks g Hrect Hp Ht "All" (or_introl eq_refl))
    as [fa [Hfa [Hma _]]].
  destruct (vehicle_view_marks g Hrect Hp Ht v (or_intror Hf)) as [fv [Hfv [Hmv _]]].
  rewrite drawn_rows_all in Hma. rewrite (drawn_rows_type _ _ Hne) in Hmv.
  exists fa, fv. split; [exact Hfa |]. split; [exact Hfv |].
  rewrite Hma, Hmv. split; [| split; [| split]].
  - intros m Hm. apply in_map_iff in Hm. destruct Hm as [r [<- Hr]].
    apply filter_In in Hr. apply in_map_iff. exists r. tauto.
  - rewrite !length_map. apply filter_length_le.
  - rewrite <- map_app. apply Permutation_map, Permutation_filter_split.
  - intros postcode. rewrite !stacked_height_pairs.
    rewrite (int_sum_split _ (fun r => cell_eq_str v (field r "CD_CL_FUEL_ENG"))).
    f_equal. f_equal. f_equal. apply filter_filter_comm.
Qed.

Lemma vehicle_view_type_within_all_witness :
  exists fig_all fig_v,
    update_vehicle_registrations_graph (load vehicle_rows transport_rows bike_rows) "All"
    = Ok fig_all
    /\ update_vehicle_registrations_graph (load vehicle_rows transport_rows bike_rows) "P"
       = Ok fig_v
    /\ incl (marks fig_v) (marks fig_all)
    /\ List.length (marks fig_v) <= List.length (marks fig_all)
    /\ stacked_height (marks fig_all) (PyInt 3000) = Some 15%Z.
Proof.
  destruct (vehicle_view_type_within_all
              (load vehicle_rows transport_rows bike_rows) "P")
    as [fa [fv [Ha [Hv [Hincl [Hlen [_ Hstack]]]]]]].
  - exact rectangular_vehicle_rows.
  - reflexivity.
  - reflexivity.
  - reflexivity.
  - discriminate.
  - exists fa, fv. repeat split; try assumption.
    rewrite (Hstack (PyInt 3000)).
    vm_compute in Hv. injection Hv as <-. reflexivity.
Defined.

Lemma mapbox_centre_outcome (df : DataFrame) (la lo : Series) :
  getitem df "Latitude" = Ok la -> getitem df "Longitude" = Ok lo ->
  mapbox_centre df (Some "Latitude") (Some "Longitude")
  = if existsb is_text (s_values la) || existsb is_text (s_values lo)
    then Raise TypeError
    else Ok (Mean (s_values la), Mean (s_values lo)).
Proof.
  intros Hla Hlo. unfold mapbox_centre, mean. rewrite Hla, Hlo. cbn [bind].
  destruct (existsb is_text (s_values la)); cbn [bind orb]; [reflexivity |].
  destruct (existsb is_text (s_values lo)); reflexivity.
Qed.

(** X11.  The map view never answers with a placeholder.  If
    Latitude or Longitude is not a column of the bicycle frame, the
    call in its guard raises KeyError(None).  Otherwise it raises the
    ValueError of a missing hover column (local_name, facility_left,
    facility_right) if there is one, else TypeError if a coordinate
    column holds a text cell, and only in the remaining case returns a
    figure: the map titled "Bike Infrastructure Distribution". *)
Theorem bike_view_outcomes (g : Globals) (selected_dataset : string) :
  (contains "Latitude" (columns (bicycle_network_df g)) = false
   \/ contains "Longitude" (columns (bicycle_network_df g)) = false ->
   update_bike_infrastructure_map g selected_dataset = Raise KeyError_None)
  /\ (forall la lo : Series,
        getitem (bicycle_network_df g) "Latitude" = Ok la ->
        getitem (bicycle_network_df g) "Longitude" = Ok lo ->
        ((exists c : string,
            In c ["local_name"; "facility_left"; "facility_right"]
            /\ contains c (columns (bicycle_network_df g)) = false) ->
         exists c : string,
           In c ["local_name"; "facility_left"; "facility_right"]
           /\ contains c (columns (bicycle_network_df g)) = false
           /\ update_bike_infrastructure_map g selected_dataset = Raise (ValueError c))
        /\ (Forall (fun c => contains c (columns (bicycle_network_df g)) = true)
              ["local_name"; "facility_left"; "facility_right"] ->
            (existsb is_text (s_values la) || existsb is_text (s_values lo) = true ->
             update_bike_infrastructure_map g selected_dataset = Raise TypeError)
            /\ (existsb is_text (s_values la) || existsb is_text (s_values lo) = false ->
                exists fig,
                  update_bike_infrastructure_map g selected_dataset = Ok fig
                  /\ marks fig = combine (s_values la) (s_values lo)
                  /\ title (layout fig) = Some "Bike Infrastructure Distribution")))
  /\ (forall fig : Figure,
        update_bike_infrastructure_map g selected_dataset = Ok fig ->
        title (layout fig) = Some "Bike Infrastructure Distribution"
        /\ is_no_data fig = false).
Proof.
  split; [apply bike_view_guard_raises |].
  assert (Hshape : forall la lo,
    getitem (bicycle_network_df g) "Latitude" = Ok la ->
    getitem (bicycle_network_df g) "Longitude" = Ok lo ->
    update_bike_infrastructure_map g selected_dataset
    = (names <- px_column (bicycle_network_df g) "local_name" ;;
       left <- px_column (bicycle_network_df g) "facility_left" ;;
       right <- px_column (bicycle_network_df g) "facility_right" ;;
       centre <- mapbox_centre (bicycle_network_df g) (Some "Latitude") (Some "Longitude") ;;
       Ok (mkFigure (Scattermapbox (s_values la) (s_values lo) names [left; right])
             (mkLayout (Some "Bike Infrastructure Distribution") None None None None
                (Some "open-street-map") (Some 10%Z) (Some 500%Z) (Some centre))))).
  { intros la lo Hla Hlo. unfold update_bike_infrastructure_map.
    rewrite (getitem_contains _ _ _ Hla), (getitem_contains _ _ _ Hlo).
    cbn [negb orb]. unfold px_scatter_mapbox. cbn [mapM].
    unfold px_column at 1 2. rewrite Hla, Hlo. cbn [bind].
    destruct (px_column (bicycle_network_df g) "local_name"); [| reflexivity].
    cbn [bind].
    destruct (px_column (bicycle_network_df g) "facility_left"); [| reflexivity].
    cbn [bind].
    destruct (px_column (bicycle_network_df g) "facility_right"); [| reflexivity].
    cbn [bind].
    destruct (mapbox_centre (bicycle_network_df g) (Some "Latitude") (Some "Longitude"));
      reflexivity. }
  split.
  - intros la lo Hla Hlo. rewrite (Hshape la lo Hla Hlo). split.
    + intros Hex.
      destruct (contains "local_name" (columns (bicycle_network_df g))) eqn:Hn.
      2:{ exists "local_name". rewrite (px_column_absent _ _ Hn). cbn [In bind]. auto. }
      destruct (px_column_present _ _ Hn) as [sn [_ ->]]. cbn [bind].
      destruct (contains "facility_left" (columns (bicycle_network_df g))) eqn:Hl.
      2:{ exists "facility_left". rewrite (px_column_absent _ _ Hl). cbn [In bind]. auto. }
      destruct (px_column_present _ _ Hl) as [sl [_ ->]]. cbn [bind].
      destruct (contains "facility_right" (columns (bicycle_network_df g))) eqn:Hr.
      2:{ exists "facility_right". rewrite (px_column_absent _ _ Hr). cbn [In bind]. auto. }
      exfalso. destruct Hex as [c [Hin Habs]].
      cbn [In] in Hin. destruct Hin as [<- | [<- | [<- | []]]]; congruence.
    + intros Hall.
      inversion Hall as [| ? ? Hn Hall1]; subst.
      inversion Hall1 as [| ? ? Hl Hall2]; subst.
      inversion Hall2 as [| ? ? Hr _]; subst.
      destruct (px_column_present _ _ Hn) as [sn [_ ->]].
      destruct (px_column_present _ _ Hl) as [sl [_ ->]].
      destruct (px_column_present _ _ Hr) as [sr [_ ->]].
      cbn [bind]. rewrite (mapbox_centre_outcome _ _ _ Hla Hlo).
      split; intros ->; cbn [bind]; [reflexivity |].
      eexists. split; [reflexivity |]. split; reflexivity.
  - intros fig Hfig.
    destruct (contains "Latitude" (columns (bicycle_network_df g))) eqn:Cla.
    2:{ rewrite (bike_view_guard_raises g _ (or_introl Cla)) in Hfig. discriminate. }
    destruct (contains "Longitude" (columns (bicycle_network_df g))) eqn:Clo.
    2:{ rewrite (bike_view_guard_raises g _ (or_intror Clo)) in Hfig. discriminate. }
    destruct (getitem_present _ _ Cla) as [la Hla].
    destruct (getitem_present _ _ Clo) as [lo Hlo].
    rewrite (Hshape la lo Hla Hlo) in Hfig.
    destruct (px_column (bicycle_network_df g) "local_name"); [| discriminate].
    destruct (px_column (bicycle_network_df g) "facility_left"); [| discriminate].
    destruct (px_column (bicycle_network_df g) "facility_right"); [| discriminate].
    destruct (mapbox_centre (bicycle_network_df g) (Some "Latitude") (Some "Longitude"));
      [| discriminate].
    cbn [bind] in Hfig. injection Hfig as <-.
    split; [reflexivity |].
    unfold is_no_data. cbn [layout title]. apply andb_false_r.
Qed.

Lemma bike_view_outcomes_witness :
  update_bike_infrastructure_map
    (load vehicle_rows transport_rows (drop "Latitude" bike_rows)) "bike"
  = Raise KeyError_None
  /\ exists c : string,
       In c ["local_name"; "facility_left"; "facility_right"]
       /\ update_bike_infrastructure_map
            (load vehicle_rows transport_rows (drop "local_name" bike_rows)) "bike"
          = Raise (ValueError c).
Proof.
  split.
  - apply (proj1 (bike_view_outcomes
                    (load vehicle_rows transport_rows (drop "Latitude" bike_rows)) "bike")).
    left. reflexivity.
  - destruct (proj1 (proj2 (bike_view_outcomes
                     (load vehicle_rows transport_rows (drop "local_name" bike_rows))
                     "bike"))
                (mkSeries float64 [PyFloat (S754_zero false); f64 true (151 * 2 ^ 45) (-47)])
                (mkSeries float64
                   [f64 false (289 * 2 ^ 44) (-45); f64 false (145 * 2 ^ 45) (-45)])
                eq_refl eq_refl) as [Hhover _].
    destruct Hhover as [c [Hin [_ Hraise]]].
    + exists "local_name". split; [now left | reflexivity].
    + exists c. split; assumption.
Defined.

(** ** The column picker and the heatmap (lines 90-125) *)

Lemma update_columns_options_eq (g : Globals) (selected_dataset : string) :
  update_columns_options g selected_dataset
  = map (fun col => mkOption col col) (columns (selected_numeric g selected_dataset)).
Proof.
  unfold update_columns_options, selected_numeric.
  destruct (String.eqb selected_dataset "vehicle");
    [| destruct (String.eqb selected_dataset "transport")]; reflexivity.
Qed.

Lemma columns_selected_numeric_load
    (csv_vehicle csv_transport csv_bike : DataFrame) (selected_dataset : string) :
  columns (selected_numeric (load csv_vehicle csv_transport csv_bike) selected_dataset)
  = columns (select_dtypes [float64; int64]
               (selected_csv csv_vehicle csv_transport csv_bike selected_dataset)).
Proof. now rewrite selected_numeric_load, select_dtypes_fillna, columns_fillna. Qed.

(** X12.  For every dataset key the column picker offers exactly the
    [int64] and [float64] columns of the chosen file, in file order,
    each with its name as label and as value; a text or boolean column
    is never offered. *)
Theorem column_picker_offers_numeric_columns
    (csv_vehicle csv_transport csv_bike : DataFrame) (selected_dataset : string) :
  map value (update_columns_options (load csv_vehicle csv_transport csv_bike)
               selected_dataset)
  = columns (select_dtypes [float64; int64]
               (selected_csv csv_vehicle csv_transport csv_bike selected_dataset))
  /\ (forall o : dropdown_option,
        In o (update_columns_options (load csv_vehicle csv_transport csv_bike)
                selected_dataset) ->
        label o = value o
        /\ exists s : Series,
             In (value o, s)
                (selected_csv csv_vehicle csv_transport csv_bike selected_dataset)
             /\ (s_dtype s = int64 \/ s_dtype s = float64))
  /\ (forall (n : string) (s : Series),
        In (n, s) (selected_csv csv_vehicle csv_transport csv_bike selected_dataset) ->
        s_dtype s = int64 \/ s_dtype s = float64 ->
        In (mkOption n n)
           (update_columns_options (load csv_vehicle csv_transport csv_bike)
              selected_dataset)).
Proof.
  rewrite update_columns_options_eq, columns_selected_numeric_load.
  set (csv := selected_csv csv_vehicle csv_transport csv_bike selected_dataset).
  split; [| split].
  - rewrite map_map. cbn [value]. apply map_id.
  - intros o Ho. apply in_map_iff in Ho. destruct Ho as [c [<- Hc]].
    split; [reflexivity |]. cbn [value].
    unfold columns in Hc. apply in_map_iff in Hc. destruct Hc as [[n s] [<- Hin]].
    unfold select_dtypes in Hin. apply filter_In in Hin. destruct Hin as [Hin Hdt].
    cbn [fst snd] in *. exists s. split; [exact Hin |].
    rewrite existsb_dtype_numeric in Hdt. destruct (s_dtype s); try discriminate; auto.
  - intros n s Hin Hdt.
    apply (in_map (fun col => mkOption col col)).
    unfold columns. apply in_map_iff. exists (n, s). split; [reflexivity |].
    unfold select_dtypes. apply filter_In. split; [exact Hin |].
    cbn [snd]. rewrite existsb_dtype_numeric. destruct Hdt as [-> | ->]; reflexivity.
Qed.

Lemma column_picker_offers_numeric_columns_witness :
  In (mkOption "bearing" "bearing")
     (update_columns_options (load vehicle_rows transport_rows bike_rows) "bike").
Proof.
  apply (proj2 (proj2 (column_picker_offers_numeric_columns
                         vehicle_rows transport_rows bike_rows "bike"))
           "bearing" (mkSeries int64 [PyInt 90; PyInt 180])).
  - cbn. tauto.
  - now left.
Defined.

Lemma heatmap_of_present_columns (g : Globals) (selected_dataset : string)
    (x : string) (xs : list string) (selected_color_scale : color_scale) :
  Forall (fun c => contains c (columns (selected_numeric g selected_dataset)) = true)
    (x :: xs) ->
  exists fig z,
    update_correlation_heatmap g selected_dataset (Some (x :: xs)) selected_color_scale
    = Ok fig
    /\ data fig = Heatmap z (x :: xs) (x :: xs) selected_color_scale true.
Proof.
  intros Hall.
  destruct (getitem_list_present _ _ Hall) as [sub [Hsub [Hcols _]]].
  unfold update_correlation_heatmap, effective_columns. cbn [falsy].
  rewrite Hsub. cbn [bind].
  destruct sub as [| c sub]; [discriminate |].
  unfold corr, create_annotated_heatmap. cbn [cm_values cm_columns cm_index map].
  rewrite Hcols. eexists. eexists. split; reflexivity.
Qed.

(** X13.  Every non-empty choice made from the options the column
    picker offers for a dataset is accepted by the heatmap view for
    that dataset: the view returns a heatmap whose two axes list the
    chosen columns in the order chosen. *)
Theorem heatmap_accepts_offered_columns
    (g : Globals) (selected_dataset : string) (selected_columns : list string)
    (selected_color_scale : color_scale) :
  selected_columns <> [] ->
  incl selected_columns (map value (update_columns_options g selected_dataset)) ->
  exists fig z,
    update_correlation_heatmap g selected_dataset (Some selected_columns)
      selected_color_scale = Ok fig
    /\ data fig = Heatmap z selected_columns selected_columns selected_color_scale true.
Proof.
  intros Hne Hincl. rewrite update_columns_options_values in Hincl.
  destruct selected_columns as [| x xs]; [contradiction |].
  apply heatmap_of_present_columns.
  apply Forall_forall. intros c Hc. apply contains_In. now apply Hincl.
Qed.

Lemma heatmap_accepts_offered_columns_witness :
  exists fig z,
    update_correlation_heatmap (load vehicle_rows transport_rows bike_rows) "bike"
      (Some ["bearing"; "Latitude"]) Cividis = Ok fig
    /\ data fig = Heatmap z ["bearing"; "Latitude"] ["bearing"; "Latitude"] Cividis true.
Proof.
  apply (heatmap_accepts_offered_columns
           (load vehicle_rows transport_rows bike_rows) "bike" ["bearing"; "Latitude"]
           Cividis).
  - discriminate.
  - intros c Hc. cbn in Hc |- *. tauto.
Defined.

Lemma getitem_list_absent (df : DataFrame) (labels : list string) (c : string) :
  In c labels -> contains c (columns df) = false ->
  exists c',
    getitem_list df labels = Raise (KeyError c')
    /\ In c' labels /\ contains c' (columns df) = false.
Proof.
  unfold getitem_list.
  induction labels as [| l labels IH]; intros Hin Habs; [contradiction |].
  cbn [mapM].
  destruct (contains l (columns df)) eqn:Hl.
  - destruct (getitem_present _ _ Hl) as [s ->]. cbn [bind].
    destruct Hin as [-> | Hin]; [congruence |].
    destruct (IH Hin Habs) as [c' [-> [Hin' Habs']]]. cbn [bind].
    exists c'. split; [reflexivity |]. split; [now right | exact Habs'].
  - rewrite (getitem_absent _ _ Hl). cbn [bind].
    exists l. split; [reflexivity |]. split; [now left | exact Hl].
Qed.

(** X14.  The heatmap view does not check the selection against the
    chosen dataset: if a selected column is not a column of that
    dataset's numeric projection (a text column, or a choice left over
    from another dataset), the view raises the KeyError of a selected
    column that is missing there, and returns no figure. *)
Theorem heatmap_foreign_column_raises
    (g : Globals) (selected_dataset : string) (selected_columns : list string)
    (selected_color_scale : color_scale) (c : string) :
  In c selected_columns ->
  contains c (columns (selected_numeric g selected_dataset)) = false ->
  exists c',
    update_correlation_heatmap g selected_dataset (Some selected_columns)
      selected_color_scale = Raise (KeyError c')
    /\ In c' selected_columns
    /\ contains c' (columns (selected_numeric g selected_dataset)) = false.
Proof.
  intros Hin Habs.
  destruct (getitem_list_absent _ _ _ Hin Habs) as [c' [Hraise [Hin' Habs']]].
  exists c'. split; [| split; assumption].
  unfold update_correlation_heatmap, effective_columns.
  destruct selected_columns as [| x xs]; [contradiction |].
  cbn [falsy]. now rewrite Hraise.
Qed.

Lemma heatmap_foreign_column_raises_witness :
  exists c',
    update_correlation_heatmap (load vehicle_rows transport_rows bike_rows) "transport"
      (Some ["TOTAL1"]) Viridis = Raise (KeyError c')
    /\ In c' ["TOTAL1"].
Proof.
  destruct (heatmap_foreign_column_raises
              (load vehicle_rows transport_rows bike_rows) "transport" ["TOTAL1"]
              Viridis "TOTAL1") as [c' [H [Hin _]]].
  - now left.
  - reflexivity.
  - exists c'. split; assumption.
Defined.

(** ** The vehicle-type dropdown (lines 72-77) *)

Lemma py_eqb_refl (x : scalar) : py_eqb x x = true.
Proof.
  destruct x as [z | f | s | b |]; cbn.
  - apply Z.eqb_refl.
  - destruct f as [s | s | | s m e]; cbn; try reflexivity.
    + now destruct s.
    + unfold SFeqb, SFcompare.
      destruct s; rewrite Z.compare_refl, Pos.compare_cont_refl; reflexivity.
  - apply String.eqb_refl.
  - apply Z.eqb_refl.
  - reflexivity.
Qed.

Lemma py_eqb_str (v : string) (y : scalar) : py_eqb (PyStr v) y = true -> y = PyStr v.
Proof.
  destruct y; cbn; try discriminate.
  intros H. apply String.eqb_eq in H. now subst.
Qed.

Lemma unique_from_In (kept l : list scalar) (x : scalar) :
  In x (unique_from kept l) -> In x l.
Proof.
  revert kept. induction l as [| a l IH]; intros kept; cbn [unique_from];
    [intros [] |].
  destruct (existsb (py_eqb a) kept).
  - intros H. right. exact (IH _ H).
  - intros [-> | H]; [now left | right; exact (IH _ H)].
Qed.

Lemma unique_from_fresh (kept l : list scalar) (x : scalar) :
  In x (unique_from kept l) -> existsb (py_eqb x) kept = false.
Proof.
  revert kept. induction l as [| a l IH]; intros kept; cbn [unique_from];
    [intros [] |].
  destruct (existsb (py_eqb a) kept) eqn:E.
  - apply IH.
  - intros [<- | H]; [exact E |].
    apply IH in H. cbn [existsb] in H. now apply orb_false_iff in H.
Qed.

Lemma unique_from_covers (kept l : list scalar) (x : scalar) :
  In x l ->
  exists y, (In y kept \/ In y (unique_from kept l)) /\ py_eqb x y = true.
Proof.
  revert kept. induction l as [| a l IH]; intros kept Hin; [contradiction |].
  cbn [unique_from].
  destruct (existsb (py_eqb a) kept) eqn:E.
  - destruct Hin as [-> | Hin].
    + apply existsb_exists in E. destruct E as [y [Hy Heq]]. eauto.
    + apply IH, Hin.
  - destruct Hin as [-> | Hin].
    + exists x. split; [right; now left | apply py_eqb_refl].
    + destruct (IH (a :: kept) Hin) as [y [[[<- | Hk] | Hu] Heq]].
      * exists a. split; [right; now left | exact Heq].
      * exists y. split; [now left | exact Heq].
      * exists y. split; [right; now right | exact Heq].
Qed.

Lemma unique_from_pairs (kept l : list scalar) :
  ForallOrdPairs (fun a b => py_eqb b a = false) (unique_from kept l).
Proof.
  revert kept. induction l as [| a l IH]; intros kept; cbn [unique_from];
    [constructor |].
  destruct (existsb (py_eqb a) kept); [apply IH |].
  constructor; [| apply IH].
  apply Forall_forall. intros b Hb. apply unique_from_fresh in Hb.
  cbn [existsb] in Hb. now apply orb_false_iff in Hb.
Qed.

Lemma unique_str (l : list scalar) (v : string) :
  In (PyStr v) (unique l) <-> In (PyStr v) l.
Proof.
  split; [apply unique_from_In |].
  intros H. destruct (unique_from_covers [] l _ H) as [y [[[] | Hy] Heq]].
  apply py_eqb_str in Heq. now subst.
Qed.

(** X15.  While the layout is built, the vehicle-type dropdown is
    filled from the CD_CL_FUEL_ENG column of the cleaned vehicle frame:
    without that column the import raises KeyError; with it, every
    option carries a value of the column as label and as value, every
    cell of the column is equal to some option, and no two options are
    equal. *)
Theorem vehicle_type_options_are_the_fuel_codes (g : Globals) :
  (contains "CD_CL_FUEL_ENG" (columns (vehicle_registration_df g)) = false ->
   vehicle_type_options g = Raise (KeyError "CD_CL_FUEL_ENG"))
  /\ (forall fuel : Series,
        getitem (vehicle_registration_df g) "CD_CL_FUEL_ENG" = Ok fuel ->
        exists opts,
          vehicle_type_options g = Ok opts
          /\ Forall (fun o => type_label o = type_value o
                              /\ In (type_value o) (s_values fuel)) opts
          /\ (forall c : scalar, In c (s_values fuel) ->
                exists o, In o opts /\ py_eqb c (type_value o) = true)
          /\ ForallOrdPairs
               (fun a b => py_eqb (type_value b) (type_value a) = false) opts).
Proof.
  split.
  - intros H. unfold vehicle_type_options. now rewrite (getitem_absent _ _ H).
  - intros fuel Hf. unfold vehicle_type_options. rewrite Hf. cbn [bind].
    eexists. split; [reflexivity |]. split; [| split].
    + rewrite Forall_map. apply Forall_forall. intros x Hx. cbn [type_label type_value].
      split; [reflexivity | exact (unique_from_In _ _ _ Hx)].
    + intros c Hc. destruct (unique_from_covers [] _ _ Hc) as [y [[[] | Hy] Heq]].
      exists (mkTypeOption y y). split; [| exact Heq].
      now apply (in_map (fun x => mkTypeOption x x)).
    + unfold unique.
      induction (unique_from_pairs [] (s_values fuel)) as [| a l Ha _ IH];
        cbn [map]; constructor; [| exact IH].
      rewrite Forall_map. exact Ha.
Qed.

Lemma vehicle_type_options_are_the_fuel_codes_witness :
  vehicle_type_options (load (drop "CD_CL_FUEL_ENG" vehicle_codes) [] [])
  = Raise (KeyError "CD_CL_FUEL_ENG")
  /\ exists opts,
       vehicle_type_options (load vehicle_codes [] []) = Ok opts
       /\ Forall (fun o => type_label o = type_value o
                           /\ In (type_value o) [PyStr "P"; PyStr "D"; PyStr "P"; PyInt 0])
            opts.
Proof.
  split.
  - apply (proj1 (vehicle_type_options_are_the_fuel_codes
                    (load (drop "CD_CL_FUEL_ENG" vehicle_codes) [] []))).
    reflexivity.
  - destruct (proj2 (vehicle_type_options_are_the_fuel_codes (load vehicle_codes [] []))
                (mkSeries object [PyStr "P"; PyStr "D"; PyStr "P"; PyInt 0]) eq_refl)
      as [opts [Hopts [Hall _]]].
    exists opts. split; [exact Hopts | exact Hall].
Defined.

Lemma cell_in_rows (df : DataFrame) (l : string) (s : Series) (v : string) :
  rectangular df -> getitem df l = Ok s ->
  (In (PyStr v) (s_values s)
   <-> filter (fun r => cell_eq_str v (field r l)) (rows df) <> []).
Proof.
  intros Hrect Hs. pose proof (getitem_length _ _ _ Hrect Hs) as Hlen.
  split.
  - intros Hin. destruct (In_nth _ _ PyNone Hin) as [i [Hi Hnth]].
    intros Hnil.
    assert (Hr : In (row_at df i)
                   (filter (fun r => cell_eq_str v (field r l)) (rows df))).
    { apply filter_In. split.
      - unfold rows. apply in_map, in_seq. lia.
      - rewrite (field_row_at _ _ _ i Hs), Hnth. cbn. apply String.eqb_refl. }
    rewrite Hnil in Hr. contradiction.
  - intros Hne.
    destruct (filter (fun r => cell_eq_str v (field r l)) (rows df)) as [| r rs] eqn:E;
      [contradiction |].
    assert (Hr : In r (filter (fun r => cell_eq_str v (field r l)) (rows df)))
      by (rewrite E; now left).
    apply filter_In in Hr. destruct Hr as [Hin Heq].
    unfold rows in Hin. apply in_map_iff in Hin. destruct Hin as [i [<- Hi]].
    apply in_seq in Hi. rewrite (field_row_at _ _ _ i Hs) in Heq.
    apply cell_eq_str_iff in Heq. rewrite <- Heq. apply nth_In. lia.
Qed.

(** X16.  A fuel code other than "All" draws at least one rectangle
    exactly when it is among the options of the vehicle-type dropdown;
    any other string (a code in another letter case, say) gets a chart
    without rectangles.  The dropdown's initial value "All" is itself
    an option only if some row carries the fuel code "All". *)
Theorem offered_types_are_the_drawn_ones (g : Globals) (opts : list type_option) :
  rectangular (vehicle_registration_df g) ->
  contains "POSTCODE" (columns (vehicle_registration_df g)) = true ->
  contains "TOTAL1" (columns (vehicle_registration_df g)) = true ->
  vehicle_type_options g = Ok opts ->
  (forall v : string, v <> "All" ->
     exists fig,
       update_vehicle_registrations_graph g v = Ok fig
       /\ (marks fig <> [] <-> In (mkTypeOption (PyStr v) (PyStr v)) opts))
  /\ (In (mkTypeOption (PyStr vehicle_type_default) (PyStr vehicle_type_default)) opts
      <-> exists r, In r (rows (vehicle_registration_df g))
                    /\ field r "CD_CL_FUEL_ENG" = PyStr "All").
Proof.
  intros Hrect Hp Ht Hopts.
  unfold vehicle_type_options in Hopts.
  destruct (getitem (vehicle_registration_df g) "CD_CL_FUEL_ENG") as [fuel | e] eqn:Hf;
    [| discriminate].
  cbn [bind] in Hopts. injection Hopts as <-.
  assert (Hopt : forall v, In (mkTypeOption (PyStr v) (PyStr v))
                             (map (fun x => mkTypeOption x x) (unique (s_values fuel)))
                           <-> In (PyStr v) (s_values fuel)).
  { intros v. rewrite <- unique_str. split.
    - intros H. apply in_map_iff in H. destruct H as [x [Hx Hin]].
      injection Hx as -> _. exact Hin.
    - apply (in_map (fun x => mkTypeOption x x)). }
  split.
  - intros v Hne.
    destruct (vehicle_view_marks g Hrect Hp Ht v
                (or_intror (getitem_contains _ _ _ Hf))) as [fig [Hfig [Hm _]]].
    exists fig. split; [exact Hfig |].
    rewrite Hopt, (cell_in_rows _ _ _ v Hrect Hf), Hm, (drawn_rows_type _ _ Hne).
    split; intros H Hnil.
    + rewrite Hnil in H. now apply H.
    + apply H. apply map_eq_nil in Hnil. exact Hnil.
  - unfold vehicle_type_default. rewrite Hopt, (cell_in_rows _ _ _ "All" Hrect Hf).
    split.
    + intros Hne.
      destruct (filter (fun r => cell_eq_str "All" (field r "CD_CL_FUEL_ENG"))
                  (rows (vehicle_registration_df g))) as [| r rs] eqn:E;
        [contradiction |].
      assert (Hr : In r (filter (fun r => cell_eq_str "All" (field r "CD_CL_FUEL_ENG"))
                           (rows (vehicle_registration_df g))))
        by (rewrite E; now left).
      apply filter_In in Hr. destruct Hr as [Hin Heq].
      exists r. split; [exact Hin | now apply cell_eq_str_iff].
    + intros [r [Hin Heq]] Hnil.
      assert (Hr : In r (filter (fun r => cell_eq_str "All" (field r "CD_CL_FUEL_ENG"))
                           (rows (vehicle_registration_df g)))).
      { apply filter_In. split; [exact Hin |]. now apply cell_eq_str_iff. }
      rewrite Hnil in Hr. contradiction.
Qed.

Lemma offered_types_are_the_drawn_ones_witness :
  exists fig,
    update_vehicle_registrations_graph (load vehicle_codes [] []) "D" = Ok fig
    /\ marks fig <> [].
Proof.
  destruct (offered_types_are_the_drawn_ones (load vehicle_codes [] [])
              [mkTypeOption (PyStr "P") (PyStr "P"); mkTypeOption (PyStr "D") (PyStr "D");
               mkTypeOption (PyInt 0) (PyInt 0)]) as [H _].
  - repeat constructor.
  - reflexivity.
  - reflexivity.
  - reflexivity.
  - destruct (H "D") as [fig [Hfig Hiff]]; [discriminate |].
    exists fig. split; [exact Hfig |]. apply Hiff. cbn. tauto.
Defined.
